(** * Smart CSV assistant: validation, execution, scoring and relevance

    A shallow embedding of the generated-code pipeline:

    - [validate_code]               (src/utils/code_validator.py)
    - [validate_execution_results]  (src/utils/code_validator.py)
    - [execute_generated_code]      (src/core/code_executor.py)
    - [calculate_quality_score]     (src/components/results_display.py)
    - [analyze_query_relevance]     (src/utils/data_utils.py)
    - the review step of [main]     (src/app.py)

    Conventions of the embedding.

    - A Python [str] is a [string]; a character stands for the code point of
      the same number (0..255), and the character predicates [isspace],
      [isdigit] and [lower] are Python's, restricted to that range.
    - The scorer and [validate_execution_results] are taken at the types
      the docstrings give their arguments: [metrics] is a dictionary with
      string keys, [summary_text] a string, [insights] a list of strings;
      [result] is any object ([PyVal]).  The executor hands the validator
      whatever objects the code has bound: [validate_execution_results_obj]
      follows the same lines on any object and raises where Python raises.
    - A number object ([VNum]) stands for the int of its value when the
      value is integral, and for the float of its value otherwise.
    - A dictionary whose iteration order is observed (the table set, the
      metrics) is an association list in insertion order; the execution
      namespace, only read by key, is a [gmap].
    - The interpreter ([exec]), the parser ([ast.parse]) and the regular
      expression engine ([re.search]) are outside the repository: they are
      section variables.
    - The messages are written as in the source; a character of theirs
      outside ASCII is held as its UTF-8 bytes.
    - [len(summary_text) / 5] is a float in the source.  Its value is k/5
      with k < 100, added to integers below 100, so the float sum and the
      exact rational have the same integer part; the score is computed over
      [Q].  Likewise [n < len(insights) * 0.6] is decided as [5 n < 3 len]. *)

From Stdlib Require Import ZArith QArith Qround Qabs List String Ascii Bool Lia.
From Stdlib Require Import Permutation Sorted DecimalString.
From stdpp Require Import gmap strings.
Import ListNotations.
Close Scope Q_scope.
Open Scope string_scope.
Open Scope nat_scope.

(** ** Python strings *)

Module Py.

Definition ord (c : ascii) : N := N_of_ascii c.

Definition between (lo hi n : N) : bool := ((lo <=? n) && (n <=? hi))%N.

(** [str.isspace] on one character. *)
Definition isspace (c : ascii) : bool :=
  let n := ord c in
  between 9 13 n || between 28 32 n || (n =? 133)%N || (n =? 160)%N.

(** [str.isdigit] on one character: the ten digits and the superscripts
    one, two and three. *)
Definition isdigit (c : ascii) : bool :=
  let n := ord c in
  between 48 57 n || (n =? 178)%N || (n =? 179)%N || (n =? 185)%N.

Definition lower_char (c : ascii) : ascii :=
  let n := ord c in
  if between 65 90 n || (between 192 222 n && negb (n =? 215)%N)
  then ascii_of_N (n + 32) else c.

(** [s.lower()] *)
Fixpoint lower (s : string) : string :=
  match s with
  | EmptyString => EmptyString
  | String c r => String (lower_char c) (lower r)
  end.

(** [sub in s] *)
Fixpoint contains (sub s : string) : bool :=
  String.prefix sub s ||
  match s with
  | EmptyString => false
  | String _ r => contains sub r
  end.

(** [any(p(c) for c in s)] *)
Fixpoint any_char (p : ascii -> bool) (s : string) : bool :=
  match s with
  | EmptyString => false
  | String c r => p c || any_char p r
  end.

(** [s.count(c)] for a one-character [c] *)
Fixpoint count (c : ascii) (s : string) : nat :=
  match s with
  | EmptyString => 0
  | String d r => (if Ascii.eqb c d then 1 else 0) + count c r
  end.

Fixpoint interleave (new s : string) : string :=
  match s with
  | EmptyString => new
  | String c r => new ++ String c (interleave new r)
  end.

Fixpoint replace_from (old new s : string) (skip : nat) : string :=
  match s with
  | EmptyString => EmptyString
  | String c r =>
      match skip with
      | S k => replace_from old new r k
      | O =>
          if String.prefix old s
          then new ++ replace_from old new r (String.length old - 1)
          else String c (replace_from old new r 0)
      end
  end.

(** [s.replace(old, new)]: occurrences are replaced from the left and do
    not overlap. *)
Definition replace (old new s : string) : string :=
  match old with
  | EmptyString => interleave new s
  | _ => replace_from old new s 0
  end.

Definition push_word (cur : string) (acc : list string) : list string :=
  match cur with
  | EmptyString => acc
  | _ => acc ++ [cur]
  end.

Fixpoint split_from (s cur : string) (acc : list string) : list string :=
  match s with
  | EmptyString => push_word cur acc
  | String c r =>
      if isspace c then split_from r EmptyString (push_word cur acc)
      else split_from r (cur ++ String c EmptyString) acc
  end.

(** [s.split()]: the maximal runs of non-whitespace characters. *)
Definition split (s : string) : list string := split_from s EmptyString [].

Fixpoint lstrip (s : string) : string :=
  match s with
  | EmptyString => EmptyString
  | String c r => if isspace c then lstrip r else s
  end.

Fixpoint rstrip (s : string) : string :=
  match s with
  | EmptyString => EmptyString
  | String c r =>
      match rstrip r with
      | EmptyString => if isspace c then EmptyString else String c EmptyString
      | r' => String c r'
      end
  end.

(** [s.strip()] *)
Definition strip (s : string) : string := rstrip (lstrip s).

(** [sep.join(l)] *)
Fixpoint join (sep : string) (l : list string) : string :=
  match l with
  | [] => EmptyString
  | [x] => x
  | x :: r => x ++ sep ++ join sep r
  end.

(** [str(n)] for a non-negative integer *)
Definition str_of_nat (n : nat) : string :=
  NilEmpty.string_of_uint (Nat.to_uint n).

(** Truth value of a string and of a list: non-empty. *)
Definition truthy_str (s : string) : bool :=
  match s with EmptyString => false | _ => true end.

Definition truthy_list {A : Type} (l : list A) : bool :=
  match l with [] => false | _ => true end.

(** [l.append(x)] *)
Definition append {A : Type} (l : list A) (x : A) : list A := (l ++ [x])%list.

End Py.

(** ** Python objects, exceptions and outcomes *)

(** The exception classes that matter to the handlers of the source:
    [except SyntaxError], [except Exception], and what passes both. *)
Inductive ExcClass :=
| SyntaxError | IndentationError
| ValueError | TypeError | KeyError | IndexError | AttributeError
| NameError | ZeroDivisionError | RecursionError | MemoryError
| KeyboardInterrupt | SystemExit | GeneratorExit.

Record PyExc := { exc_class : ExcClass; exc_str : string }.

(** [isinstance(e, SyntaxError)] *)
Definition is_SyntaxError (e : PyExc) : bool :=
  match exc_class e with
  | SyntaxError | IndentationError => true
  | _ => false
  end.

(** [isinstance(e, Exception)] *)
Definition is_Exception (e : PyExc) : bool :=
  match exc_class e with
  | KeyboardInterrupt | SystemExit | GeneratorExit => false
  | _ => true
  end.

Inductive PyOutcome (A : Type) :=
| Returned (a : A)
| Raised (e : PyExc).
Arguments Returned {A} a.
Arguments Raised {A} e.

Record Column := { col_name : string; col_numeric : bool }.

(** A pandas DataFrame, as far as the source looks at it: its columns
    (name and whether the dtype is numeric) and its number of rows. *)
Record DataFrame := { df_columns : list Column; df_len : nat }.

Inductive Scalar :=
| SNum (q : Q)
| SText (s : string).

(** A metrics dictionary: keys in insertion order, a value is a scalar or
    [None]. *)
Definition Metrics := list (string * option Scalar).

Inductive PyVal :=
| VNone
| VNum (q : Q)
| VStr (s : string)
| VList (l : list string)
| VDict (m : Metrics)
| VSeries (n : nat)
| VDataFrame (df : DataFrame)
| VModule (name : string).

(** [len(v)] where [hasattr(v, '__len__')], [None] where it has none. *)
Definition py_len (v : PyVal) : option nat :=
  match v with
  | VStr s => Some (String.length s)
  | VList l => Some (length l)
  | VDict m => Some (length m)
  | VSeries n => Some n
  | VDataFrame df => Some (df_len df)
  | VNone | VNum _ | VModule _ => None
  end.

(** [metrics[k] = v] *)
Fixpoint dict_set {V : Type} (k : string) (v : V) (d : list (string * V)) : list (string * V) :=
  match d with
  | [] => [(k, v)]
  | (k', v') :: r => if String.eqb k k' then (k, v) :: r else (k', v') :: dict_set k v r
  end.

(** [int(x)]: truncation towards zero. *)
Definition py_int (x : Q) : Z :=
  if Qle_bool 0 x then Qfloor x else Qceiling x.

(** [sum(1 for insight in insights if any(char.isdigit() for char in str(insight)))] *)
Definition insights_with_numbers (insights : list string) : nat :=
  length (List.filter (Py.any_char Py.isdigit) insights).

(** ** Result contract validator (code_validator.py, lines 155-211) *)

(** [if c: l.append(msg)] *)
Definition append_if (c : bool) (msg : string) (l : list string) : list string :=
  if c then Py.append l msg else l.

(** The shape of the four main checks, on the pair of [issues] and
    [is_valid]:
    [if hard: issues.append(hard_msg); is_valid = False]
    [elif soft: issues.append(soft_msg)]. *)
Definition hard_elif_soft (hard : bool) (hard_msg : string) (soft : bool) (soft_msg : string)
    (st : list string * bool) : list string * bool :=
  if hard then (Py.append (fst st) hard_msg, false)
  else if soft then (Py.append (fst st) soft_msg, snd st)
  else st.

(** [result is None] *)
Definition is_None (v : PyVal) : bool :=
  match v with VNone => true | _ => false end.

(** [hasattr(result, '__len__') and len(result) == 0] *)
Definition sized_and_empty (v : PyVal) : bool :=
  match py_len v with Some 0 => true | _ => false end.

(** [not summary_text or summary_text.strip() == ""] *)
Definition summary_missing (summary_text : string) : bool :=
  negb (Py.truthy_str summary_text) || String.eqb (Py.strip summary_text) "".

(** [[k for k, v in metrics.items() if v is None]] *)
Definition none_metrics (metrics : Metrics) : list string :=
  map fst (List.filter (fun kv => match snd kv with None => true | Some _ => false end) metrics).

Definition validate_execution_results
    (result : PyVal) (metrics : Metrics) (summary_text : string) (insights : list string)
    : bool * list string :=
  (* issues = []; is_valid = True *)
  let st : list string * bool := ([], true) in
  (* Check result *)
  let st :=
    hard_elif_soft
      (is_None result) "❌ Result is None"
      (sized_and_empty result) "⚠️ Result is empty - query may have found no matching data"
      st in
  (* Check metrics *)
  let st :=
    hard_elif_soft
      (negb (Py.truthy_list metrics)) "❌ Metrics dictionary is empty"
      (length metrics <? 5)
      ("⚠️ Only " ++ Py.str_of_nat (length metrics) ++ " metrics provided, recommended minimum is 5")
      st in
  (* Check for None values in metrics *)
  let st :=
    (append_if (Py.truthy_list metrics && Py.truthy_list (none_metrics metrics))
       ("⚠️ Metrics contain None values: " ++ Py.join ", " (none_metrics metrics))
       (fst st),
     snd st) in
  (* Check summary_text *)
  let st :=
    hard_elif_soft
      (summary_missing summary_text) "❌ Summary text is empty"
      (String.length summary_text <? 50) "⚠️ Summary text is very short (less than 50 characters)"
      st in
  (* Check insights *)
  let st :=
    hard_elif_soft
      (negb (Py.truthy_list insights)) "❌ Insights list is empty"
      (length insights <? 5)
      ("⚠️ Only " ++ Py.str_of_nat (length insights) ++ " insights provided, recommended minimum is 5")
      st in
  (* Check if insights contain actual numbers *)
  let st :=
    (append_if
       (Py.truthy_list insights
        && (5 * insights_with_numbers insights <? 3 * length insights))
       "⚠️ Many insights lack specific numbers - they should include concrete data"
       (fst st),
     snd st) in
  (* return is_valid, issues *)
  (snd st, fst st).

(** ** Quality scorer (results_display.py, lines 180-228) *)

Definition calculate_quality_score
    (metrics : Metrics) (insights : list string) (summary_text : string) (result : PyVal) : Z :=
  let score : Q := 0%Q in
  (* Metrics quality (30 points) *)
  let score :=
    if Py.truthy_list metrics then
      let metrics_count := length metrics in
      if 5 <=? metrics_count then (score + 30)%Q
      else (score + inject_Z (Z.of_nat metrics_count * 6))%Q
    else score in
  (* Insights quality (30 points) *)
  let score :=
    if Py.truthy_list insights then
      let insights_count := length insights in
      let score :=
        if 5 <=? insights_count then (score + 20)%Q
        else (score + inject_Z (Z.of_nat insights_count * 4))%Q in
      (score + inject_Z (Z.min 10 (Z.of_nat (insights_with_numbers insights) * 2)))%Q
    else score in
  (* Summary quality (20 points) *)
  let score :=
    if Py.truthy_str summary_text then
      if 100 <=? String.length summary_text then (score + 20)%Q
      else (score + inject_Z (Z.of_nat (String.length summary_text)) / 5)%Q
    else score in
  (* Result data quality (20 points) *)
  let score :=
    match result with
    | VNone => score
    | VDataFrame df =>
        if 0 <? df_len df then
          let score := (score + 15)%Q in
          if 1 <? length (df_columns df) then (score + 5)%Q else score
        else (score + 5)%Q
    | _ => (score + 10)%Q
    end in
  Z.min 100 (py_int score).

(** ** Relevance selector (data_utils.py, lines 196-265) *)

Definition keywords_map : list (string * list string) :=
  [ ("country", ["country"; "nation"; "destination"; "origin"]);
    ("product", ["product"; "item"; "commodity"; "goods"; "hs"; "classification"]);
    ("value", ["value"; "amount"; "price"; "fob"; "cost"; "total"]);
    ("date", ["date"; "time"; "year"; "month"; "period"]);
    ("quantity", ["quantity"; "volume"; "weight"; "units"]);
    ("enterprise", ["enterprise"; "company"; "business"; "firm"; "exporter"; "importer"]) ].

(** The body of [for col in df.columns]. *)
Definition column_step (query_lower : string) (query_words : gset string)
    (score : Z) (col : Column) : Z :=
  let col_lower := Py.lower (col_name col) in
  let col_words : gset string := list_to_set (Py.split (Py.replace "_" " " col_lower)) in
  (* Exact column name match *)
  let score := if Py.contains col_lower query_lower then (score + 50)%Z else score in
  (* Word overlap *)
  let word_overlap := size (query_words ∩ col_words) in
  let score := (score + Z.of_nat word_overlap * 10)%Z in
  fold_left
    (fun score (entry : string * list string) =>
       let synonyms := snd entry in
       if existsb (fun syn => Py.contains syn query_lower) synonyms then
         if existsb (fun syn => Py.contains syn col_lower) synonyms
         then (score + 20)%Z else score
       else score)
    keywords_map score.

(** The body of [for df_name, df in dataframes_dict.items()]: the score of
    one table. *)
Definition table_score (query_lower : string) (query_words : gset string)
    (df_name : string) (df : DataFrame) : Z :=
  let score := 0%Z in
  (* Check if dataframe name is mentioned in query *)
  let clean_df_name := Py.lower (Py.replace "_" " " (Py.replace "df_" "" df_name)) in
  let score := if Py.contains clean_df_name query_lower then (score + 100)%Z else score in
  (* Check column name matches *)
  let score := fold_left (column_step query_lower query_words) (df_columns df) score in
  (* Check data type relevance *)
  if Py.contains "total" query_lower || Py.contains "sum" query_lower
     || Py.contains "calculate" query_lower
  then
    let numeric_cols := List.filter col_numeric (df_columns df) in
    (score + Z.of_nat (length numeric_cols) * 5)%Z
  else score.

(** [relevance_scores], the dictionary from table name to score, after the
    loop. *)
Definition relevance_scores (query : string) (dataframes_dict : list (string * DataFrame))
    : list (string * Z) :=
  let query_lower := Py.lower query in
  let query_words : gset string := list_to_set (Py.split query_lower) in
  fold_left
    (fun scores (item : string * DataFrame) =>
       dict_set (fst item) (table_score query_lower query_words (fst item) (snd item)) scores)
    dataframes_dict [].

(** [sorted(items, key=lambda x: x[1], reverse=True)]: a stable sort, larger
    keys first; an item goes in front of the items it does not exceed. *)
Fixpoint insert_desc (x : string * Z) (l : list (string * Z)) : list (string * Z) :=
  match l with
  | [] => [x]
  | y :: r => if (snd x <? snd y)%Z then y :: insert_desc x r else x :: y :: r
  end.

Definition sorted_desc (l : list (string * Z)) : list (string * Z) :=
  fold_right insert_desc [] l.

Definition analyze_query_relevance (query : string)
    (dataframes_dict : list (string * DataFrame)) : list string :=
  let relevance_scores := relevance_scores query dataframes_dict in
  (* Sort by relevance score *)
  let sorted_dfs := sorted_desc relevance_scores in
  (* Return dataframes with score > 0, or all if none match *)
  let relevant_dfs := map fst (List.filter (fun item => (0 <? snd item)%Z) sorted_dfs) in
  if negb (Py.truthy_list relevant_dfs)
  then map fst dataframes_dict
  else relevant_dfs.

(** ** The process state around an execution *)

(** [sys.stdout] holds a stream object; a [StringIO] object holds text and
    may have been closed.  Objects are told apart by their identity. *)
Record World := {
  sys_stdout : nat;
  stringio_value : nat -> string;
  stringio_closed : nat -> bool;
  next_object : nat
}.

(** [sys.stdout = s] *)
Definition set_stdout (s : nat) (w : World) : World :=
  {| sys_stdout := s;
     stringio_value := stringio_value w;
     stringio_closed := stringio_closed w;
     next_object := next_object w |}.

(** [io.StringIO()]: a new, empty, open buffer. *)
Definition new_StringIO (w : World) : nat * World :=
  (next_object w,
   {| sys_stdout := sys_stdout w;
      stringio_value := fun i => if i =? next_object w then "" else stringio_value w i;
      stringio_closed := fun i => if i =? next_object w then false else stringio_closed w i;
      next_object := S (next_object w) |}).

(** [s.getvalue()]: the text of the buffer; a closed buffer raises. *)
Definition getvalue (s : nat) (w : World) : PyOutcome string :=
  if stringio_closed w s
  then Raised {| exc_class := ValueError; exc_str := "I/O operation on closed file" |}
  else Returned (stringio_value w s).

(** The dictionary [execute_generated_code] returns. *)
Record ExecutionResult := {
  er_result : PyVal;
  er_metrics : PyVal;
  er_summary_text : PyVal;
  er_insights : PyVal;
  er_output_text : string;
  er_is_valid : bool;
  er_validation_issues : list string
}.

(** *** The validator on the objects the executor reads

    [validate_execution_results] (code_validator.py, lines 155-211) called on
    any four objects: the same checks in the same order; an operation that an
    object does not support raises, and the issues gathered so far are
    lost with it. *)

(** [type(v).__name__] *)
Definition type_name (v : PyVal) : string :=
  match v with
  | VNone => "NoneType"
  | VNum q => if (Qnum q mod Z.pos (Qden q) =? 0)%Z then "int" else "float"
  | VStr _ => "str"
  | VList _ => "list"
  | VDict _ => "dict"
  | VSeries _ => "Series"
  | VDataFrame _ => "DataFrame"
  | VModule _ => "module"
  end.

(** The error of [bool(v)] for a pandas object (pandas 1 and 2). *)
Definition truth_value_error (v : PyVal) : PyExc :=
  {| exc_class := ValueError;
     exc_str := "The truth value of a " ++ type_name v
                ++ " is ambiguous. Use a.empty, a.bool(), a.item(), a.any() or a.all()." |}.

(** The error of [len(v)] for an object without a length. *)
Definition no_len_error (v : PyVal) : PyExc :=
  {| exc_class := TypeError;
     exc_str := "object of type '" ++ type_name v ++ "' has no len()" |}.

(** The error of [v.attr] for an object without that attribute. *)
Definition no_attribute_error (v : PyVal) (attr : string) : PyExc :=
  {| exc_class := AttributeError;
     exc_str :=
       match v with
       | VModule name => "module '" ++ name ++ "' has no attribute '" ++ attr ++ "'"
       | _ => "'" ++ type_name v ++ "' object has no attribute '" ++ attr ++ "'"
       end |}.

(** [bool(v)], the test behind [if v] and [not v]: [None], zero and the
    empty string, list and dictionary are false; a Series or a DataFrame
    refuses the test. *)
Definition py_bool (v : PyVal) : PyOutcome bool :=
  match v with
  | VNone => Returned false
  | VNum q => Returned (negb (Qeq_bool q 0))
  | VStr s => Returned (Py.truthy_str s)
  | VList l => Returned (Py.truthy_list l)
  | VDict m => Returned (Py.truthy_list m)
  | VSeries _ | VDataFrame _ => Raised (truth_value_error v)
  | VModule _ => Returned true
  end.

(** The strings [str(x)] for [x] in [v], for the objects that have a truth
    value and a length: the characters of a string, the items of a list,
    the keys of a dictionary. *)
Definition iterated_texts (v : PyVal) : list string :=
  match v with
  | VStr s => map (fun c => String c EmptyString) (list_ascii_of_string s)
  | VList l => l
  | VDict m => map fst m
  | _ => []
  end.

(** Check metrics, and check for None values in metrics (lines 178-189). *)
Definition check_metrics (metrics : PyVal) (st : list string * bool)
    : PyOutcome (list string * bool) :=
  match py_bool metrics with
  | Raised e => Raised e
  | Returned false =>
      (* if not metrics: *)
      Returned (Py.append (fst st) "❌ Metrics dictionary is empty", false)
  | Returned true =>
      (* elif len(metrics) < 5: *)
      match py_len metrics with
      | None => Raised (no_len_error metrics)
      | Some n =>
          let st :=
            hard_elif_soft false "❌ Metrics dictionary is empty"
              (n <? 5)
              ("⚠️ Only " ++ Py.str_of_nat n ++ " metrics provided, recommended minimum is 5")
              st in
          (* if metrics: [k for k, v in metrics.items() if v is None]; of the
             objects that get here only a dictionary has [items] *)
          match metrics with
          | VDict m =>
              Returned
                (append_if (Py.truthy_list (none_metrics m))
                   ("⚠️ Metrics contain None values: " ++ Py.join ", " (none_metrics m))
                   (fst st),
                 snd st)
          | _ => Raised (no_attribute_error metrics "items")
          end
      end
  end.

(** Check summary_text (lines 191-196). *)
Definition check_summary_text (summary_text : PyVal) (st : list string * bool)
    : PyOutcome (list string * bool) :=
  match py_bool summary_text with
  | Raised e => Raised e
  | Returned false =>
      (* if not summary_text *)
      Returned (Py.append (fst st) "❌ Summary text is empty", false)
  | Returned true =>
      (* or summary_text.strip() == "": only a string has [strip] *)
      match summary_text with
      | VStr s =>
          Returned
            (hard_elif_soft
               (String.eqb (Py.strip s) "") "❌ Summary text is empty"
               (String.length s <? 50)
               "⚠️ Summary text is very short (less than 50 characters)"
               st)
      | _ => Raised (no_attribute_error summary_text "strip")
      end
  end.

(** Check insights, and check if insights contain actual numbers (lines
    198-209). *)
Definition check_insights (insights : PyVal) (st : list string * bool)
    : PyOutcome (list string * bool) :=
  match py_bool insights with
  | Raised e => Raised e
  | Returned false =>
      (* if not insights: *)
      Returned (Py.append (fst st) "❌ Insights list is empty", false)
  | Returned true =>
      (* elif len(insights) < 5: *)
      match py_len insights with
      | None => Raised (no_len_error insights)
      | Some n =>
          let st :=
            hard_elif_soft false "❌ Insights list is empty"
              (n <? 5)
              ("⚠️ Only " ++ Py.str_of_nat n ++ " insights provided, recommended minimum is 5")
              st in
          (* if insights: *)
          Returned
            (append_if
               (5 * insights_with_numbers (iterated_texts insights) <? 3 * n)
               "⚠️ Many insights lack specific numbers - they should include concrete data"
               (fst st),
             snd st)
      end
  end.

Definition validate_execution_results_obj (result metrics summary_text insights : PyVal)
    : PyOutcome (bool * list string) :=
  (* issues = []; is_valid = True *)
  let st : list string * bool := ([], true) in
  (* Check result *)
  let st :=
    hard_elif_soft
      (is_None result) "❌ Result is None"
      (sized_and_empty result) "⚠️ Result is empty - query may have found no matching data"
      st in
  match check_metrics metrics st with
  | Raised e => Raised e
  | Returned st =>
      match check_summary_text summary_text st with
      | Raised e => Raised e
      | Returned st =>
          match check_insights insights st with
          | Raised e => Raised e
          | Returned st =>
              (* return is_valid, issues *)
              Returned (snd st, fst st)
          end
      end
  end.

(** The namespace the generated code runs in (code_executor.py, lines
    23-30): the two library handles, then one binding per table. *)
Definition initial_locals (dataframes_dict : list (string * DataFrame)) : gmap string PyVal :=
  (* Prepare execution environment with all dataframes *)
  let local_vars : gmap string PyVal :=
    <["np" := VModule "numpy"]> (<["pd" := VModule "pandas"]> ∅) in
  (* Add all dataframes to the execution environment *)
  fold_left
    (fun (local_vars : gmap string PyVal) (item : string * DataFrame) =>
       <[fst item := VDataFrame (snd item)]> local_vars)
    dataframes_dict local_vars.

(** The globals handed to [exec] (code_executor.py, line 38). *)
Definition exec_globals : gmap string PyVal :=
  <["pd" := VModule "pandas"]> (<["__builtins__" := VModule "builtins"]> ∅).

(** The state in which the code runs: [sys.stdout] is a new buffer. *)
Definition redirected (w : World) : World :=
  let '(captured_output, w) := new_StringIO w in
  set_stdout captured_output w.

(** [re.search] returns a match object or [None]. *)
Record ReMatch := { group : nat -> string }.

(** What the user does with the review of the generated code. *)
Inductive ReviewAction :=
| NoAction
| Discarded
| Executed (outcome : PyOutcome ExecutionResult * World).

Definition dquote : ascii := ascii_of_nat 34.

Section Pipeline.

(** [exec(code, globals, locals)]: the interpreter runs [code]; it may bind
    names in [locals], write to the stream in [sys.stdout], close it,
    rebind [sys.stdout], and raise. *)
Variable exec_ :
  string -> gmap string PyVal -> gmap string PyVal -> World ->
  PyOutcome (gmap string PyVal) * World.

(** [re.search(pattern, string, flags)]; the flag is [re.DOTALL]. *)
Variable re_search : string -> string -> bool -> option ReMatch.

(** [ast.parse(code)] *)
Variable ast_parse : string -> PyOutcome unit.

(** *** Sandboxed executor (code_executor.py, lines 11-68) *)

Definition execute_generated_code (code : string)
    (dataframes_dict : list (string * DataFrame)) (w : World)
    : PyOutcome ExecutionResult * World :=
  let local_vars := initial_locals dataframes_dict in
  (* Capture output *)
  let old_stdout := sys_stdout w in
  let '(captured_output, w) := new_StringIO w in
  let w := set_stdout captured_output w in
  (* try: *)
  let attempt : PyOutcome ExecutionResult * World :=
    match exec_ code exec_globals local_vars w with
    | (Raised e, w) => (Raised e, w)
    | (Returned local_vars, w) =>
        let w := set_stdout old_stdout w in
        match getvalue captured_output w with
        | Raised e => (Raised e, w)
        | Returned output_text =>
            (* Get results *)
            let result := default VNone (local_vars !! "result") in
            let metrics := default (VDict []) (local_vars !! "metrics") in
            let summary_text := default (VStr "") (local_vars !! "summary_text") in
            let insights := default (VList []) (local_vars !! "insights") in
            (* Validate results *)
            match validate_execution_results_obj result metrics summary_text insights with
            | Raised e => (Raised e, w)
            | Returned (is_valid, validation_issues) =>
                (Returned {| er_result := result;
                             er_metrics := metrics;
                             er_summary_text := summary_text;
                             er_insights := insights;
                             er_output_text := output_text;
                             er_is_valid := is_valid;
                             er_validation_issues := validation_issues |}, w)
            end
        end
    end in
  match attempt with
  | (Returned r, w) =>
      (* finally: *)
      (Returned r, set_stdout old_stdout w)
  | (Raised e, w) =>
      if is_Exception e then
        (* except Exception as e: restore, re-raise; then finally: *)
        let w := set_stdout old_stdout w in
        (Raised e, set_stdout old_stdout w)
      else
        (* finally: *)
        (Raised e, set_stdout old_stdout w)
  end.

(** *** Static validator (code_validator.py, lines 10-152) *)

Definition dangerous_imports : list string :=
  ["os"; "sys"; "subprocess"; "eval"; "exec"; "compile"; "__import__"].

Definition required_vars : list string :=
  ["result"; "metrics"; "summary_text"; "insights"].

Definition security_import_issue (imp : string) : string :=
  "🚫 SECURITY: Code tries to import '" ++ imp ++ "' (not allowed)".

Definition is_match (m : option ReMatch) : bool :=
  match m with Some _ => true | None => false end.

Definition validate_code (code : string) (available_dfs : list string)
    : PyOutcome (list string) :=
  let issues : list string := [] in
  let warnings : list string := [] in
  (* Check for dangerous imports *)
  let issues :=
    fold_left
      (fun (issues : list string) (imp : string) =>
         append_if
           (Py.contains ("import " ++ imp) code || Py.contains ("from " ++ imp) code)
           (security_import_issue imp) issues)
      dangerous_imports issues in
  let issues :=
    append_if (Py.contains "import openai" code || Py.contains "from openai" code)
      "🚫 Code tries to import openai (not allowed)" issues in
  (* Check for file operations *)
  let issues :=
    append_if
      (Py.contains "open(" code || Py.contains "write(" code || Py.contains "read(" code)
      "🚫 SECURITY: Code tries to perform file operations (not allowed)" issues in
  (* Check for network operations *)
  let issues :=
    append_if
      (Py.contains "requests." code || Py.contains "urllib" code || Py.contains "socket" code)
      "🚫 SECURITY: Code tries to make network requests (not allowed)" issues in
  (* Check if code uses at least one available dataframe *)
  let uses_any_df := existsb (fun df_name => Py.contains df_name code) available_dfs in
  let issues :=
    append_if (negb uses_any_df)
      "⚠️ CRITICAL: Code doesn't use any of the available dataframes" issues in
  (* Note which dataframes are used *)
  let used_dfs := List.filter (fun df_name => Py.contains df_name code) available_dfs in
  let unused_dfs :=
    List.filter (fun df_name => negb (Py.contains df_name code)) available_dfs in
  let warnings :=
    append_if (Py.truthy_list used_dfs)
      ("ℹ️ Using dataframes: " ++ Py.join ", " used_dfs) warnings in
  let warnings :=
    append_if (Py.truthy_list unused_dfs && (0 <? length used_dfs))
      ("ℹ️ Not using: " ++ Py.join ", " unused_dfs
       ++ " (this might be intentional based on the query)") warnings in
  (* Check for required output variables *)
  let missing_vars :=
    List.filter
      (fun var => negb (is_match (re_search ("\b" ++ var ++ "\s*=") code false)))
      required_vars in
  let issues :=
    append_if (Py.truthy_list missing_vars)
      ("⚠️ CRITICAL: Missing required output variables: " ++ Py.join ", " missing_vars)
      issues in
  (* Check metrics structure *)
  let warnings :=
    if Py.contains "metrics" code && Py.contains "metrics = {" code then
      match re_search "metrics\s*=\s*\{([^}]+)\}" code true with
      | Some metrics_match =>
          let metrics_content := group metrics_match 1 in
          (* Count key-value pairs (rough estimate) *)
          let metric_count := Py.count ":" metrics_content in
          append_if (metric_count <? 5)
            ("⚠️ QUALITY: Only " ++ Py.str_of_nat metric_count
             ++ " metrics found, recommend at least 5 for comprehensive analysis")
            warnings
      | None => warnings
      end
    else warnings in
  (* Check insights structure *)
  let warnings :=
    if Py.contains "insights" code && Py.contains "insights = [" code then
      match re_search "insights\s*=\s*\[([^\]]+)\]" code true with
      | Some insights_match =>
          let insights_content := group insights_match 1 in
          (* Count insights (rough estimate) *)
          let insight_count :=
            Py.count dquote insights_content / 2 + Py.count "'" insights_content / 2 in
          append_if (insight_count <? 5)
            ("⚠️ QUALITY: Only " ++ Py.str_of_nat insight_count
             ++ " insights found, recommend at least 5 for thorough analysis")
            warnings
      | None => warnings
      end
    else warnings in
  (* Check for null handling *)
  let warnings :=
    append_if (Py.contains ".str." code && negb (Py.contains "na=False" code))
      "⚠️ WARNING: String operations found but 'na=False' not used - may cause issues with null values"
      warnings in
  (* Check for proper boolean operations *)
  let warnings :=
    append_if
      ((Py.contains "&" code || Py.contains "|" code)
       && negb (is_match (re_search "\([^)]+\)\s*[&|]\s*\([^)]+\)" code false)))
      "⚠️ WARNING: Boolean operations found but conditions may not be properly parenthesized"
      warnings in
  (* Check for division operations that might cause division by zero *)
  let warnings :=
    append_if (Py.contains "/" code && negb (Py.contains "if " (Py.lower code)))
      "ℹ️ NOTE: Division operations found - ensure zero-division is handled"
      warnings in
  (* Check for .iloc or .loc without bounds checking *)
  let warnings :=
    append_if
      ((Py.contains ".iloc[0]" code || Py.contains ".loc[0]" code)
       && negb (Py.contains "if len(" code))
      "⚠️ WARNING: Direct indexing found without checking if data exists - may fail on empty results"
      warnings in
  (* Syntax check: try: ast.parse(code) *)
  let parsed : PyOutcome (list string * list string) :=
    match ast_parse code with
    | Returned _ => Returned (issues, warnings)
    | Raised e =>
        if is_SyntaxError e
        then (* except SyntaxError as e: *)
          Returned (Py.append issues ("🚫 SYNTAX ERROR: " ++ exc_str e), warnings)
        else if is_Exception e
        then (* except Exception as e: *)
          Returned (issues, Py.append warnings ("⚠️ Could not parse code: " ++ exc_str e))
        else Raised e
    end in
  match parsed with
  | Raised e => Raised e
  | Returned (issues, warnings) =>
      (* Check for hardcoded values that should be dynamic *)
      let warnings :=
        append_if
          (is_match (re_search "\[\d+\]" code false) && negb (Py.contains "len(" code))
          "ℹ️ NOTE: Hardcoded indices found - ensure they're within bounds"
          warnings in
      (* Check for proper column name usage (with quotes) *)
      let warnings :=
        append_if
          (negb (Py.contains "df['" code)
           && negb (Py.contains ("df[" ++ String dquote "") code)
           && existsb (fun df => Py.contains df code) available_dfs)
          "ℹ️ NOTE: Ensure column names are accessed with quotes: df['column_name']"
          warnings in
      (* Combine issues and warnings *)
      Returned (issues ++ warnings)%list
  end.

(** *** The review step of [main] (app.py, lines 127-159) *)

Definition review_step (generated_code : string)
    (dataframes : list (string * DataFrame))
    (execute_button discard_button : bool) (w : World)
    : PyOutcome (list string * ReviewAction) :=
  (* Validate code with all available dataframe names *)
  let available_dfs := map fst dataframes in
  match validate_code generated_code available_dfs with
  | Raised e => Raised e
  | Returned validation_issues =>
      (* render_code_review shows the issues and returns the two buttons *)
      if discard_button then Returned (validation_issues, Discarded)
      else if execute_button
      then Returned (validation_issues,
                     Executed (execute_generated_code generated_code dataframes w))
      else Returned (validation_issues, NoAction)
  end.

End Pipeline.

(** ** The contribution of each artifact to the score

    The four summands of [calculate_quality_score]; the summary's is counted
    in fifths of a point.  [score_decompose] below relates them to the
    scorer. *)

Definition metrics_points (metrics : Metrics) : Z :=
  if Py.truthy_list metrics then
    if 5 <=? length metrics then 30%Z else (Z.of_nat (length metrics) * 6)%Z
  else 0%Z.

Definition insights_points (insights : list string) : Z :=
  if Py.truthy_list insights then
    ((if (5 <=? length insights)%nat then 20 else Z.of_nat (length insights) * 4)
     + Z.min 10 (Z.of_nat (insights_with_numbers insights) * 2))%Z
  else 0%Z.

Definition summary_fifths (summary_text : string) : Z :=
  if Py.truthy_str summary_text then
    if 100 <=? String.length summary_text then 100%Z
    else Z.of_nat (String.length summary_text)
  else 0%Z.

Definition result_points (result : PyVal) : Z :=
  match result with
  | VNone => 0%Z
  | VDataFrame df =>
      if 0 <? df_len df then
        if 1 <? length (df_columns df) then 20%Z else 15%Z
      else 5%Z
  | _ => 10%Z
  end.

(** *** Vocabulary for rankings *)

(** [a] may stand before [b] in a ranking: its score is at least [b]'s. *)
Definition desc (a b : string * Z) : Prop := (snd b <= snd a)%Z.

Definition positive (item : string * Z) : bool := (0 <? snd item)%Z.

Definition scored (k : Z) (item : string * Z) : bool := (snd item =? k)%Z.

(** Every character of [s] is whitespace ([s] may be empty). *)
Definition blank (s : string) : Prop :=
  forall c, In c (list_ascii_of_string s) -> Py.isspace c = true.

(** ** Sample artifacts and tables *)

Definition five_metrics : Metrics :=
  [("a", Some (SNum 1)); ("b", Some (SNum 2)); ("c", Some (SNum 3));
   ("d", Some (SNum 4)); ("e", Some (SNum 5))].

Definition two_column_table : DataFrame :=
  {| df_columns := [ {| col_name := "Region"; col_numeric := false |};
                     {| col_name := "amount"; col_numeric := true |} ];
     df_len := 3 |}.

Definition customers_table : DataFrame :=
  {| df_columns := [ {| col_name := "customer_id"; col_numeric := true |} ]; df_len := 0 |}.

Definition five_insights : list string :=
  ["Sales grew 12%"; "Top region: 3 stores"; "Average order 45"; "7 outliers"; "Q4 peak"].

Definition summary_120 : string :=
  "0123456789012345678901234567890123456789012345678901234567890123456789012345678901234567890123456789"
  ++ "01234567890123456789".

(** An interpreter, a parser and a regular-expression engine to run the
    pipeline on.  The interpreter knows three programs; object 0 is the
    standard error stream. *)
Definition newline : string := String (ascii_of_nat 10) "".

(** [s.write(text)] on a [StringIO] object. *)
Definition write (s : nat) (text : string) (w : World) : World :=
  {| sys_stdout := sys_stdout w;
     stringio_value := fun i => if i =? s then stringio_value w s ++ text else stringio_value w i;
     stringio_closed := stringio_closed w;
     next_object := next_object w |}.

Definition sample_exec (code : string) (globals locals : gmap string PyVal) (w : World)
    : PyOutcome (gmap string PyVal) * World :=
  if String.eqb code "print('hi'); summary_text = 'ok'"
  then (Returned (<["summary_text" := VStr "ok"]> locals),
        write (sys_stdout w) ("hi" ++ newline) w)
  else if String.eqb code "import sys; print('bye'); sys.stdout = sys.stderr; raise SystemExit(2)"
  then (Raised {| exc_class := SystemExit; exc_str := "2" |},
        set_stdout 0 (write (sys_stdout w) ("bye" ++ newline) w))
  else if String.eqb code "import os; result = 1/0"
  then (Raised {| exc_class := ZeroDivisionError; exc_str := "division by zero" |}, w)
  else (Returned locals, w).

Definition sample_ast_parse (code : string) : PyOutcome unit :=
  if String.eqb code "result = ("
  then Raised {| exc_class := SyntaxError;
                 exc_str := "'(' was never closed (<unknown>, line 1)" |}
  else Returned tt.

Definition sample_re_search (pattern s : string) (dotall : bool) : option ReMatch := None.

Definition sample_world : World :=
  {| sys_stdout := 1;
     stringio_value := fun _ => "";
     stringio_closed := fun _ => false;
     next_object := 2 |}.

(** ** The quality band shown with the score (results_display.py, lines 45-53) *)

Inductive QualityBand :=
| Excellent
| Good
| NeedsWork.

Definition quality_band (quality_score : Z) : QualityBand :=
  if (80 <=? quality_score)%Z then Excellent
  else if (60 <=? quality_score)%Z then Good
  else NeedsWork.

(** The four messages of the hard checks of [validate_execution_results]. *)
Definition hard_messages : list string :=
  ["❌ Result is None"; "❌ Metrics dictionary is empty";
   "❌ Summary text is empty"; "❌ Insights list is empty"].

(** [s.close()] on a [StringIO] object. *)
Definition close (s : nat) (w : World) : World :=
  {| sys_stdout := sys_stdout w;
     stringio_value := stringio_value w;
     stringio_closed := fun i => if i =? s then true else stringio_closed w i;
     next_object := next_object w |}.

(** A second interpreter for running the executor.  Its first two programs
    bind all four artifacts, the third binds a number to [metrics], the
    fourth closes the stream that [sys.stdout] holds. *)
Definition sample_exec_full (code : string) (globals locals : gmap string PyVal) (w : World)
    : PyOutcome (gmap string PyVal) * World :=
  if String.eqb code "result = 1; metrics = {'rows': 3}; summary_text = 'ok'; insights = ['x1']"
  then (Returned (<["insights" := VList ["x1"]]>
                    (<["summary_text" := VStr "ok"]>
                       (<["metrics" := VDict [("rows", Some (SNum 3))]]>
                          (<["result" := VNum 1]> locals)))), w)
  else if String.eqb code "result = 1; metrics = {'rows': 3}; summary_text = 'ok'; insights = 'abc'"
  then (Returned (<["insights" := VStr "abc"]>
                    (<["summary_text" := VStr "ok"]>
                       (<["metrics" := VDict [("rows", Some (SNum 3))]]>
                          (<["result" := VNum 1]> locals)))), w)
  else if String.eqb code "metrics = 5"
  then (Returned (<["metrics" := VNum 5]> locals), w)
  else if String.eqb code "import sys; sys.stdout.close()"
  then (Returned (<["sys" := VModule "sys"]> locals), close (sys_stdout w) w)
  else (Raised {| exc_class := NameError; exc_str := "name 'x' is not defined" |}, w).

(** ** The tables put before the code generator (app.py, lines 81-99) *)

(** [name in l] for a list of strings. *)
Definition mem (name : string) (l : list string) : bool :=
  existsb (String.eqb name) l.

(** The names whose full description opens the prompt: the loop over
    [relevant_df_names[:3]] with its guard [if df_name in dataframes_dict]. *)
Definition primary_dataframes (relevant_df_names : list string)
    (dataframes_dict : list (string * DataFrame)) : list string :=
  List.filter (fun df_name => mem df_name (map fst dataframes_dict))
    (firstn 3 relevant_df_names).

(** [other_dfs]: the names listed briefly after them. *)
Definition other_dfs (relevant_df_names : list string)
    (dataframes_dict : list (string * DataFrame)) : list string :=
  List.filter (fun name => negb (mem name (firstn 3 relevant_df_names)))
    (map fst dataframes_dict).

(** ** LLM handler (llm_handler.py) *)

(** Text before the first occurrence of [sub] in [s]. *)
Fixpoint before_first (sub s : string) : option string :=
  if String.prefix sub s then Some EmptyString
  else
    match s with
    | EmptyString => None
    | String c r =>
        match before_first sub r with
        | Some t => Some (String c t)
        | None => None
        end
    end.

(** [s[n:]] *)
Fixpoint skip (n : nat) (s : string) : string :=
  match n, s with
  | S k, String _ r => skip k r
  | _, _ => s
  end.

(** A match of the pattern [```(?:python)?\n(.*?)\n```] (with [re.DOTALL])
    that starts at the head of [s]; the value is group 1.  The opening is
    three backticks, then [python] or nothing, then a newline; the lazy
    group ends at the first newline followed by three backticks. *)
Definition code_fence_at (s : string) : option string :=
  if String.prefix ("```python" ++ newline) s
  then before_first (newline ++ "```") (skip 10 s)
  else if String.prefix ("```" ++ newline) s
  then before_first (newline ++ "```") (skip 4 s)
  else None.

(** [re.search] with that pattern: the match at the leftmost position that
    has one. *)
Fixpoint code_fence_search (s : string) : option string :=
  match code_fence_at s with
  | Some g => Some g
  | None =>
      match s with
      | EmptyString => None
      | String _ r => code_fence_search r
      end
  end.

(** [model or default] *)
Definition or_default (model : option string) (default_model : string) : string :=
  match model with
  | Some (String c r) => String c r
  | _ => default_model
  end.

Definition system_message : string :=
  "You are a data analysis expert that generates clean, executable Python pandas code. Return only code without explanations or markdown formatting.".

Definition gemini_preamble : string :=
  "You are a data analysis expert that generates clean, executable Python pandas code. "
  ++ newline ++ "Return only code without explanations or markdown formatting."
  ++ newline ++ newline.

(** The provider names the sidebar offers and what it stores for them
    (sidebar.py, lines 17-24). *)
Definition provider_options : list string := ["OpenAI"; "Google Gemini"].

Definition sidebar_provider (provider : string) : string :=
  Py.replace "google" "" (Py.replace " " "" (Py.lower provider)).

Section LLM.

(** [openai.chat.completions.create] with the key, the model and the two
    messages, up to the text of the first choice. *)
Variable openai_create : string -> string -> string -> string -> PyOutcome string.

(** [GenerativeModel(model).generate_content(full_prompt).text] with the
    key. *)
Variable gemini_generate : string -> string -> string -> PyOutcome string.

(** Lines 38-43 and 88-93: try to extract code from markdown. *)
Definition extract_code (response_text : string) : string :=
  match code_fence_search response_text with
  | Some generated_code => generated_code
  | None => response_text
  end.

Definition generate_code_with_openai (api_key prompt model : string) : PyOutcome string :=
  match openai_create api_key model system_message prompt with
  | Raised e => Raised e
  | Returned response_text => Returned (extract_code response_text)
  end.

Definition generate_code_with_gemini (api_key prompt model : string) : PyOutcome string :=
  (* Add system instruction as part of the prompt *)
  let full_prompt := gemini_preamble ++ prompt in
  match gemini_generate api_key model full_prompt with
  | Raised e => Raised e
  | Returned response_text => Returned (extract_code response_text)
  end.

Definition generate_code_with_llm (api_key prompt provider : string) (model : option string)
    : PyOutcome string :=
  if String.eqb (Py.lower provider) "openai" then
    let model := or_default model "gpt-4-turbo-preview" in
    generate_code_with_openai api_key prompt model
  else if String.eqb (Py.lower provider) "gemini" then
    let model := or_default model "gemini-1.5-pro" in
    generate_code_with_gemini api_key prompt model
  else
    Raised {| exc_class := ValueError;
              exc_str := "Unsupported provider: " ++ provider
                         ++ ". Choose 'openai' or 'gemini'" |}.

End LLM.

(** Two providers to run the handler on. *)
Definition sample_openai (api_key model system prompt : string) : PyOutcome string :=
  Returned ("Here is the code:" ++ newline ++ "```python" ++ newline
            ++ "result = df_sales.head()" ++ newline ++ "```" ++ newline ++ "Done.").

Definition sample_gemini (api_key model full_prompt : string) : PyOutcome string :=
  Returned "result = df_sales.head()".

(** ** Session state and data loading (session_state.py, sidebar.py) *)

(** [st.session_state], for the six keys [initialize_session_state] names;
    [None] is a key that is not in the session. *)
Record SessionState := {
  ss_dataframes_loaded : option bool;
  ss_dataframes : option (list (string * DataFrame));
  ss_num_files : option nat;
  ss_chat_history : option (list string);
  ss_llm_provider : option string;
  ss_llm_model : option string
}.

(** [if key not in st.session_state: st.session_state.key = value] *)
Definition set_default {A : Type} (current : option A) (value : A) : option A :=
  match current with
  | None => Some value
  | Some v => Some v
  end.

Definition initialize_session_state (st : SessionState) : SessionState :=
  {| ss_dataframes_loaded := set_default (ss_dataframes_loaded st) false;
     ss_dataframes := set_default (ss_dataframes st) [];
     ss_num_files := set_default (ss_num_files st) 0;
     ss_chat_history := set_default (ss_chat_history st) [];
     ss_llm_provider := set_default (ss_llm_provider st) "openai";
     ss_llm_model := set_default (ss_llm_model st) "gpt-4-turbo-preview" |}.

Record UploadedFile := { file_name : string; file_content : string }.

(** Create clean dataframe name from filename (sidebar.py, lines 89-90). *)
Definition df_name_of (name : string) : string :=
  let df_name := Py.replace " " "_" (Py.replace "-" "_" (Py.replace ".csv" "" name)) in
  "df_" ++ df_name.

(** What the load button reports. *)
Inductive LoadReport :=
| LoadSuccess (n : nat)
| LoadError (e : PyExc)
| LoadWarning.

Section Sidebar.

(** [pd.read_csv(file, low_memory=False)] *)
Variable read_csv : UploadedFile -> PyOutcome DataFrame.

(** The loop [for file in uploaded_files] on the session's tables: the
    tables when it stops, and the exception that stopped it, if any. *)
Fixpoint load_files (uploaded_files : list UploadedFile)
    (dataframes : list (string * DataFrame))
    : list (string * DataFrame) * option PyExc :=
  match uploaded_files with
  | [] => (dataframes, None)
  | file :: rest =>
      let df_name := df_name_of (file_name file) in
      match read_csv file with
      | Raised e => (dataframes, Some e)
      | Returned df => load_files rest (dict_set df_name df dataframes)
      end
  end.

(** The handler of the load button (sidebar.py, lines 76-115): the session
    afterwards and what is reported, or the exception that is not caught. *)
Definition load_all_data (uploaded_files : list UploadedFile) (st : SessionState)
    : SessionState * PyOutcome LoadReport :=
  if Py.truthy_list uploaded_files then
    (* Clear existing dataframes, then load each file *)
    match load_files uploaded_files [] with
    | (dataframes, None) =>
        ({| ss_dataframes_loaded := Some true;
            ss_dataframes := Some dataframes;
            ss_num_files := Some (length uploaded_files);
            ss_chat_history := ss_chat_history st;
            ss_llm_provider := ss_llm_provider st;
            ss_llm_model := ss_llm_model st |},
         Returned (LoadSuccess (length uploaded_files)))
    | (dataframes, Some e) =>
        ({| ss_dataframes_loaded := ss_dataframes_loaded st;
            ss_dataframes := Some dataframes;
            ss_num_files := ss_num_files st;
            ss_chat_history := ss_chat_history st;
            ss_llm_provider := ss_llm_provider st;
            ss_llm_model := ss_llm_model st |},
         if is_Exception e then Returned (LoadError e) else Raised e)
    end
  else (st, Returned LoadWarning).

End Sidebar.

(** A reader that fails on one file name, and files to load. *)
Definition sample_read_csv (file : UploadedFile) : PyOutcome DataFrame :=
  if String.eqb (file_name file) "broken.csv"
  then Raised {| exc_class := ValueError; exc_str := "No columns to parse from file" |}
  else Returned {| df_columns := [ {| col_name := file_content file; col_numeric := false |} ];
                   df_len := 1 |}.

Definition sample_files : list UploadedFile :=
  [ {| file_name := "sales data.csv"; file_content := "region" |};
    {| file_name := "sales-data.csv"; file_content := "amount" |};
    {| file_name := "customers.csv"; file_content := "customer_id" |} ].

Definition sample_session : SessionState :=
  {| ss_dataframes_loaded := Some true;
     ss_dataframes := Some [("df_old", customers_table)];
     ss_num_files := Some 1;
     ss_chat_history := Some [];
     ss_llm_provider := Some "gemini";
     ss_llm_model := Some "gemini-pro" |}.

(** ** Metric display (results_display.py, lines 63-93 and 163-177) *)

(** The grid of metrics: for every row, the indices [metric_idx] of the
    metrics shown in it, from the loops over [range(rows_needed)] and
    [range(num_cols)] with the guard [metric_idx < len(metric_items)]. *)
Definition metric_grid (n_items : nat) : list (list nat) :=
  let num_cols := Nat.min n_items 4 in
  if 0 <? num_cols then
    let rows_needed := (n_items + num_cols - 1) / num_cols in
    map (fun row =>
           flat_map (fun col_idx =>
                       let metric_idx := row * num_cols + col_idx in
                       if metric_idx <? n_items then [metric_idx] else [])
                    (seq 0 num_cols))
        (seq 0 rows_needed)
  else [].

Section MetricFormat.

(** The three numeric formats, [f"${value/1_000_000:.2f}M"], [f"{value:,.0f}"]
    and [f"{value:.2f}"], are the interpreter's. *)
Variable format_millions : Q -> string.
Variable format_grouped : Q -> string.
Variable format_fixed2 : Q -> string.

(** Truncate long strings (lines 174-177). *)
Definition truncate_value (str_value : string) : string :=
  if 30 <? String.length str_value
  then substring 0 27 str_value ++ "..."
  else str_value.

Definition format_metric_value (value : option Scalar) : string :=
  match value with
  | Some (SNum x) =>
      if negb (Qle_bool (Qabs x) 1000000) then format_millions x
      else if negb (Qle_bool (Qabs x) 1000) then format_grouped x
      else format_fixed2 x
  | Some (SText s) => truncate_value s
  | None => truncate_value "None"
  end.

End MetricFormat.

(** ** Vocabulary for the static validator's list *)

(** The message for code that names none of the tables. *)
Definition unused_data_issue : string :=
  "⚠️ CRITICAL: Code doesn't use any of the available dataframes".

(** The texts [validate_code] puts in [warnings] start in one of these
    ways. *)
Definition is_warning (x : string) : Prop :=
  String.prefix "ℹ️" x = true
  \/ String.prefix "⚠️ QUALITY" x = true
  \/ String.prefix "⚠️ WARNING" x = true
  \/ String.prefix "⚠️ Could not parse" x = true.

(** * Properties *)

(** ** The definitions on small inputs *)

Example lower_ex : Py.lower "Total SALES by_Region" = "total sales by_region".
Proof. reflexivity. Qed.

Example replace_ex :
  Py.replace "_" " " (Py.replace "df_" "" "df_export_data") = "export data".
Proof. reflexivity. Qed.

Example split_ex : Py.split "  total  sales by region " = ["total"; "sales"; "by"; "region"].
Proof. reflexivity. Qed.

Example strip_ex : Py.strip "  a b  " = "a b" /\ Py.strip "   " = "".
Proof. split; reflexivity. Qed.

Example contains_ex :
  Py.contains "" "" = true /\ Py.contains "import os" "x; import os" = true
  /\ Py.contains "from sys" "import os" = false.
Proof. repeat split; reflexivity. Qed.

Example str_of_nat_ex : Py.str_of_nat 0 = "0" /\ Py.str_of_nat 42 = "42".
Proof. split; reflexivity. Qed.

Example score_scalar_only : calculate_quality_score [] [] "abcdefg" (VNum 3%Q) = 11%Z.
Proof. reflexivity. Qed.

Example validate_all_absent :
  fst (validate_execution_results VNone [] "" []) = false
  /\ length (snd (validate_execution_results VNone [] "" [])) = 4.
Proof. split; reflexivity. Qed.

Ltac in_left := apply in_or_app; left.
Ltac in_right := apply in_or_app; right.

Ltac case_if :=
  match goal with
  | |- context [if ?c then _ else _] => destruct c eqn:?
  end.

(** ** Result contract validator *)

Lemma hard_elif_soft_fst h hm sf sm st :
  fst (hard_elif_soft h hm sf sm st)
  = (fst st ++ (if h then [hm] else if sf then [sm] else []))%list.
Proof.
  unfold hard_elif_soft, Py.append. destruct h; [reflexivity|].
  destruct sf; [reflexivity|]. symmetry. apply app_nil_r.
Qed.

Lemma hard_elif_soft_snd h hm sf sm st :
  snd (hard_elif_soft h hm sf sm st) = snd st && negb h.
Proof.
  unfold hard_elif_soft. destruct h; cbn [snd negb].
  - symmetry. apply andb_false_r.
  - destruct sf; symmetry; apply andb_true_r.
Qed.

Lemma append_if_app c msg l :
  append_if c msg l = (l ++ (if c then [msg] else []))%list.
Proof. unfold append_if, Py.append. destruct c; [reflexivity|]. symmetry. apply app_nil_r. Qed.

(** The verdict is the conjunction of the four hard checks. *)
Lemma validate_is_valid r m s i :
  fst (validate_execution_results r m s i)
  = negb (is_None r) && Py.truthy_list m && negb (summary_missing s) && Py.truthy_list i.
Proof.
  unfold validate_execution_results. cbv zeta. cbn [fst snd].
  rewrite !hard_elif_soft_snd. cbn [snd andb]. rewrite !negb_involutive. reflexivity.
Qed.

(** The issue list is the concatenation of what the six checks add. *)
Lemma validate_issues r m s i :
  snd (validate_execution_results r m s i)
  = ((((((if is_None r then ["❌ Result is None"]
          else if sized_and_empty r
          then ["⚠️ Result is empty - query may have found no matching data"]
          else [])
         ++ (if negb (Py.truthy_list m) then ["❌ Metrics dictionary is empty"]
             else if length m <? 5
             then [("⚠️ Only " ++ Py.str_of_nat (length m)
                    ++ " metrics provided, recommended minimum is 5")%string]
             else []))
        ++ (if Py.truthy_list m && Py.truthy_list (none_metrics m)
            then [("⚠️ Metrics contain None values: " ++ Py.join ", " (none_metrics m))%string]
            else []))
       ++ (if summary_missing s then ["❌ Summary text is empty"]
           else if String.length s <? 50
           then ["⚠️ Summary text is very short (less than 50 characters)"]
           else []))
      ++ (if negb (Py.truthy_list i) then ["❌ Insights list is empty"]
          else if length i <? 5
          then [("⚠️ Only " ++ Py.str_of_nat (length i)
                 ++ " insights provided, recommended minimum is 5")%string]
          else []))
     ++ (if Py.truthy_list i && (5 * insights_with_numbers i <? 3 * length i)
         then ["⚠️ Many insights lack specific numbers - they should include concrete data"]
         else []))%list.
Proof.
  unfold validate_execution_results. cbv zeta. cbn [fst snd].
  rewrite !append_if_app, !hard_elif_soft_fst. reflexivity.
Qed.

Lemma blank_cons c s : blank (String c s) <-> Py.isspace c = true /\ blank s.
Proof.
  unfold blank. cbn [list_ascii_of_string In]. split.
  - intros H. split; [apply H; left; reflexivity | intros d Hd; apply H; right; exact Hd].
  - intros [Hc Hs] d [<-|Hd]; [exact Hc | apply Hs, Hd].
Qed.

Lemma blank_empty : blank "".
Proof. intros c []. Qed.

Lemma rstrip_empty s : Py.rstrip s = "" <-> blank s.
Proof.
  induction s as [|c s IH]; cbn [Py.rstrip].
  - split; [intros _; apply blank_empty | reflexivity].
  - rewrite blank_cons. destruct (Py.rstrip s) eqn:E.
    + destruct (Py.isspace c); split; try discriminate.
      * intros _. split; [reflexivity | apply IH; reflexivity].
      * reflexivity.
      * intros [Hc _]. discriminate.
    + split; [discriminate|]. intros [_ Hs]. apply IH in Hs. discriminate.
Qed.

Lemma lstrip_blank s : blank (Py.lstrip s) <-> blank s.
Proof.
  induction s as [|c s IH]; cbn [Py.lstrip]; [reflexivity|].
  destruct (Py.isspace c) eqn:E; [|reflexivity].
  rewrite blank_cons, IH. tauto.
Qed.

(** [summary_text] fails the hard check exactly when it is empty or made of
    whitespace only. *)
Lemma summary_missing_iff s : summary_missing s = true <-> blank s.
Proof.
  unfold summary_missing. rewrite orb_true_iff, String.eqb_eq.
  unfold Py.strip. rewrite rstrip_empty, lstrip_blank.
  split; [|tauto]. intros [H|H]; [|exact H].
  destruct s; [apply blank_empty | discriminate].
Qed.

Lemma truthy_list_false {A : Type} (l : list A) : Py.truthy_list l = false <-> l = [].
Proof. destruct l; split; intros H; try reflexivity; discriminate. Qed.

Lemma is_None_true r : is_None r = true <-> r = VNone.
Proof. destruct r; split; intros H; try reflexivity; discriminate. Qed.

(** C6: the verdict is false exactly when a hard condition holds: the result
    is [None], the metrics are empty, the summary is empty or whitespace
    only, or the insights are empty.  Each soft condition adds its issue to
    the list and leaves the verdict alone: a sized result of length zero,
    one to four metrics, a metric whose value is [None], a summary under 50
    characters, one to four insights, fewer than 60% of the insights with a
    digit. *)
Theorem result_contract_verdict
    (r : PyVal) (m : Metrics) (s : string) (i : list string) :
  let verdict := validate_execution_results r m s i in
  (fst verdict = false <-> r = VNone \/ m = [] \/ blank s \/ i = [])
  /\ (r <> VNone -> m <> [] -> ~ blank s -> i <> [] -> fst verdict = true)
  /\ (py_len r = Some 0 ->
      In "⚠️ Result is empty - query may have found no matching data" (snd verdict))
  /\ (1 <= length m <= 4 ->
      In ("⚠️ Only " ++ Py.str_of_nat (length m) ++ " metrics provided, recommended minimum is 5")
         (snd verdict))
  /\ ((exists k, In (k, None) m) ->
      In ("⚠️ Metrics contain None values: " ++ Py.join ", " (none_metrics m)) (snd verdict))
  /\ (~ blank s -> String.length s < 50 ->
      In "⚠️ Summary text is very short (less than 50 characters)" (snd verdict))
  /\ (1 <= length i <= 4 ->
      In ("⚠️ Only " ++ Py.str_of_nat (length i) ++ " insights provided, recommended minimum is 5")
         (snd verdict))
  /\ (i <> [] -> 5 * insights_with_numbers i < 3 * length i ->
      In "⚠️ Many insights lack specific numbers - they should include concrete data"
         (snd verdict)).
Proof.
  cbv zeta.
  assert (Hiff : fst (validate_execution_results r m s i) = false
                 <-> r = VNone \/ m = [] \/ blank s \/ i = []).
  { rewrite validate_is_valid, !andb_false_iff, !negb_false_iff.
    rewrite is_None_true, summary_missing_iff, !truthy_list_false. tauto. }
  split; [exact Hiff|]. split.
  { intros Hr Hm Hs Hi. apply not_false_iff_true. intros E. apply Hiff in E. tauto. }
  rewrite validate_issues.
  repeat split.
  - intros Hlen. do 5 in_left. unfold sized_and_empty. rewrite Hlen.
    destruct r; try discriminate; left; reflexivity.
  - intros [Hlo Hhi]. do 4 in_left. in_right.
    destruct m as [|e m']; [cbn in Hlo; lia|]. cbn [Py.truthy_list negb].
    destruct (length (e :: m') <? 5) eqn:E; [left; reflexivity|].
    apply Nat.ltb_ge in E. lia.
  - intros [k Hk]. do 3 in_left. in_right.
    assert (Hin : In k (none_metrics m)).
    { unfold none_metrics. apply in_map_iff. exists (k, None). split; [reflexivity|].
      apply List.filter_In. split; [exact Hk | reflexivity]. }
    destruct m as [|e m']; [destruct Hk|]. cbn [Py.truthy_list andb].
    destruct (none_metrics (e :: m')); [destruct Hin|]. left. reflexivity.
  - intros Hs Hlen. do 2 in_left. in_right.
    destruct (summary_missing s) eqn:E; [apply summary_missing_iff in E; tauto|].
    destruct (String.length s <? 50) eqn:E2; [left; reflexivity|].
    apply Nat.ltb_ge in E2. lia.
  - intros [Hlo Hhi]. in_left. in_right.
    destruct i as [|e i']; [cbn in Hlo; lia|]. cbn [Py.truthy_list negb].
    destruct (length (e :: i') <? 5) eqn:E; [left; reflexivity|].
    apply Nat.ltb_ge in E. lia.
  - intros Hi Hnum. in_right.
    destruct i as [|e i']; [congruence|]. cbn [Py.truthy_list andb].
    destruct (5 * insights_with_numbers (e :: i') <? 3 * length (e :: i')) eqn:E;
      [left; reflexivity|].
    apply Nat.ltb_ge in E. lia.
Qed.

Lemma not_blank_short : ~ blank "short".
Proof. intros H. specialize (H "s"%char (or_introl eq_refl)). discriminate. Defined.

Lemma result_contract_verdict_witness :
  let verdict := validate_execution_results (VSeries 0) [("rows", None)] "short" ["none"] in
  fst verdict = true
  /\ In "⚠️ Result is empty - query may have found no matching data" (snd verdict)
  /\ In "⚠️ Only 1 metrics provided, recommended minimum is 5" (snd verdict)
  /\ In "⚠️ Metrics contain None values: rows" (snd verdict)
  /\ In "⚠️ Summary text is very short (less than 50 characters)" (snd verdict)
  /\ In "⚠️ Only 1 insights provided, recommended minimum is 5" (snd verdict)
  /\ In "⚠️ Many insights lack specific numbers - they should include concrete data"
        (snd verdict).
Proof.
  pose proof (result_contract_verdict (VSeries 0) [("rows", None)] "short" ["none"])
    as (_ & Hvalid & Hres & Hmet & Hnone & Hsum & Hins & Hnum).
  cbv zeta. split; [|split; [|split; [|split; [|split; [|split]]]]].
  - apply Hvalid; [discriminate | discriminate | exact not_blank_short | discriminate].
  - apply Hres. reflexivity.
  - apply Hmet. cbn. lia.
  - apply Hnone. exists "rows". left. reflexivity.
  - apply Hsum; [exact not_blank_short | cbn; lia].
  - apply Hins. cbn. lia.
  - apply Hnum; [discriminate | vm_compute; lia].
Defined.

(** ** Quality scorer *)

Lemma py_int_fifths (q : Q) (k f : Z) :
  (0 <= k)%Z -> (0 <= f)%Z ->
  (q == inject_Z k + inject_Z f / 5)%Q ->
  py_int q = (k + f / 5)%Z.
Proof.
  intros Hk Hf Hq.
  assert (Hq' : (q == inject_Z (k * 5 + f) / inject_Z 5)%Q).
  { rewrite Hq, inject_Z_plus, inject_Z_mult. field. }
  unfold py_int.
  assert (Hpos : Qle_bool 0 q = true).
  { apply Qle_bool_iff. rewrite Hq'.
    apply Qle_shift_div_l; [reflexivity|].
    rewrite Qmult_0_l. rewrite <- (Zle_Qle 0). lia. }
  rewrite Hpos, Hq', <- Zdiv_Qdiv.
  rewrite Z.div_add_l by lia. reflexivity.
Qed.

Lemma metrics_points_bounds m : (0 <= metrics_points m <= 30)%Z.
Proof.
  unfold metrics_points. destruct (Py.truthy_list m); [|lia].
  destruct (5 <=? length m) eqn:E; [lia|].
  apply Nat.leb_gt in E. lia.
Qed.

Lemma insights_points_bounds i : (0 <= insights_points i <= 30)%Z.
Proof.
  unfold insights_points. destruct (Py.truthy_list i); [|lia].
  destruct (5 <=? length i) eqn:E; [lia|].
  apply Nat.leb_gt in E. lia.
Qed.

Lemma summary_fifths_bounds s : (0 <= summary_fifths s <= 100)%Z.
Proof.
  unfold summary_fifths. destruct (Py.truthy_str s); [|lia].
  destruct (100 <=? String.length s) eqn:E; [lia|].
  apply Nat.leb_gt in E. lia.
Qed.

Lemma result_points_bounds r : (0 <= result_points r <= 20)%Z.
Proof. unfold result_points. destruct r; repeat case_if; lia. Qed.

(** The score is the sum of the four contributions, the summary's rounded
    down; the cap at 100 is never reached from above. *)
Lemma score_decompose m i s r :
  calculate_quality_score m i s r =
  (metrics_points m + insights_points i + result_points r + summary_fifths s / 5)%Z.
Proof.
  pose proof (metrics_points_bounds m) as Hm.
  pose proof (insights_points_bounds i) as Hi.
  pose proof (summary_fifths_bounds s) as Hs.
  pose proof (result_points_bounds r) as Hr.
  assert (Hs5 : (0 <= summary_fifths s / 5 <= 20)%Z).
  { split; [apply Z.div_pos; lia | apply Z.div_le_upper_bound; lia]. }
  transitivity
    (Z.min 100 (metrics_points m + insights_points i + result_points r
                + summary_fifths s / 5)%Z); [|lia].
  unfold calculate_quality_score. f_equal.
  apply py_int_fifths; [lia | lia |].
  clear. unfold metrics_points, insights_points, result_points, summary_fifths.
  destruct (Py.truthy_list m), (5 <=? length m), (Py.truthy_list i), (5 <=? length i),
    (Py.truthy_str s), (100 <=? String.length s); destruct r;
    repeat match goal with |- context [if ?c then _ else _] => destruct c end;
    rewrite ?inject_Z_plus, ?inject_Z_mult; field.
Qed.

Lemma metrics_points_length m :
  metrics_points m = Z.min 30 (Z.of_nat (length m) * 6)%Z.
Proof.
  unfold metrics_points. destruct m as [|e m]; [reflexivity|].
  cbn [Py.truthy_list]. destruct (5 <=? length (e :: m)) eqn:E.
  - apply Nat.leb_le in E. lia.
  - apply Nat.leb_gt in E. lia.
Qed.

Lemma insights_points_length i :
  insights_points i =
  (Z.min 20 (Z.of_nat (length i) * 4)
   + Z.min 10 (Z.of_nat (insights_with_numbers i) * 2))%Z.
Proof.
  unfold insights_points. destruct i as [|e i]; [reflexivity|].
  cbn [Py.truthy_list]. destruct (5 <=? length (e :: i)) eqn:E.
  - apply Nat.leb_le in E. lia.
  - apply Nat.leb_gt in E. lia.
Qed.

Lemma dict_set_length {V : Type} (k : string) (v : V) (d : list (string * V)) :
  length d <= length (dict_set k v d) <= S (length d).
Proof.
  induction d as [|[k' v'] d IH]; cbn [dict_set length]; [lia|].
  destruct (String.eqb k k'); cbn [length]; lia.
Qed.

Lemma insights_with_numbers_app i j :
  insights_with_numbers (i ++ j)%list = insights_with_numbers i + insights_with_numbers j.
Proof. unfold insights_with_numbers. rewrite List.filter_app, length_app. reflexivity. Qed.

(** C3 (amended): what the result adds to the score, for every combination of
    the other three artifacts.  A non-empty DataFrame adds 15, and 5 more when
    it has more than one column; an empty DataFrame adds 5; any other object
    that is not [None] adds 10, a sized one such as a Series, a list or a
    string included, empty or not; [None] adds nothing. *)
Theorem result_contribution (m : Metrics) (i : list string) (s : string) :
  let score := calculate_quality_score m i s in
  (forall c1 c2 cols n,
      score (VDataFrame {| df_columns := c1 :: c2 :: cols; df_len := S n |})
      = score VNone + 15 + 5)%Z
  /\ (forall c n, score (VDataFrame {| df_columns := [c]; df_len := S n |}) = score VNone + 15)%Z
  /\ (forall n, score (VDataFrame {| df_columns := []; df_len := S n |}) = score VNone + 15)%Z
  /\ (forall cols, score (VDataFrame {| df_columns := cols; df_len := 0 |}) = score VNone + 5)%Z
  /\ (forall n, score (VSeries n) = score VNone + 10)%Z
  /\ (forall l, score (VList l) = score VNone + 10)%Z
  /\ (forall t, score (VStr t) = score VNone + 10)%Z
  /\ (forall d, score (VDict d) = score VNone + 10)%Z
  /\ (forall q, score (VNum q) = score VNone + 10)%Z
  /\ (forall name, score (VModule name) = score VNone + 10)%Z
  /\ calculate_quality_score [] [] "" VNone = 0%Z.
Proof.
  cbv zeta. repeat split; intros; rewrite ?score_decompose;
    cbn [result_points df_len df_columns length Nat.ltb Nat.leb]; lia.
Qed.

(** C3 (as stated) fails on sized results that are not DataFrames: an empty
    Series has length zero and adds 10, not 5; a Series of three entries
    adds 10, not 15. *)
Lemma sized_result_counterexample :
  py_len (VSeries 0) = Some 0
  /\ calculate_quality_score [] [] "" (VSeries 0)
     <> (calculate_quality_score [] [] "" VNone + 5)%Z
  /\ py_len (VSeries 3) = Some 3
  /\ calculate_quality_score [] [] "" (VSeries 3)
     <> (calculate_quality_score [] [] "" VNone + 15)%Z.
Proof. repeat split; try reflexivity; vm_compute; discriminate. Qed.

(** C4: the metrics contribution at the boundaries.  Five entries add 30 to
    the score, four add 24, none adds nothing, whatever the other artifacts;
    and the validator rejects an empty metrics dictionary. *)
Theorem metrics_contribution_boundary
    (m : Metrics) (i : list string) (s : string) (r : PyVal) :
  (length m = 5 ->
   calculate_quality_score m i s r = (calculate_quality_score [] i s r + 30)%Z)
  /\ (length m = 4 ->
      calculate_quality_score m i s r = (calculate_quality_score [] i s r + 24)%Z)
  /\ (length m = 0 ->
      calculate_quality_score m i s r = calculate_quality_score [] i s r
      /\ calculate_quality_score m [] "" VNone = 0%Z
      /\ fst (validate_execution_results r m s i) = false).
Proof.
  split; [|split]; intros H.
  - rewrite !score_decompose, !metrics_points_length, H. cbn [length]. lia.
  - rewrite !score_decompose, !metrics_points_length, H. cbn [length]. lia.
  - destruct m; [|discriminate]. split; [reflexivity|]. split; [reflexivity|].
    rewrite validate_is_valid. cbn [Py.truthy_list]. apply andb_false_iff. left.
    apply andb_false_iff. left. apply andb_false_r.
Qed.

Lemma metrics_contribution_boundary_witness :
  (calculate_quality_score five_metrics ["x"] "s" VNone
   = calculate_quality_score [] ["x"] "s" VNone + 30)%Z
  /\ (calculate_quality_score (tl five_metrics) ["x"] "s" VNone
      = calculate_quality_score [] ["x"] "s" VNone + 24)%Z
  /\ fst (validate_execution_results (VNum 1) [] "s" ["x"]) = false.
Proof.
  split; [|split].
  - exact (proj1 (metrics_contribution_boundary five_metrics ["x"] "s" VNone) eq_refl).
  - exact (proj1 (proj2 (metrics_contribution_boundary (tl five_metrics) ["x"] "s" VNone))
             eq_refl).
  - exact (proj2 (proj2 (proj2 (proj2
             (metrics_contribution_boundary [] ["x"] "s" (VNum 1))) eq_refl))).
Defined.

(** C5: five metrics, five insights each with a digit, a summary of 120
    characters and a non-empty table of two columns score exactly 100. *)
Theorem full_marks_scenario
    (m : Metrics) (i : list string) (s : string) (df : DataFrame) :
  length m = 5 ->
  length i = 5 ->
  Forall (fun insight => Py.any_char Py.isdigit insight = true) i ->
  String.length s = 120 ->
  0 < df_len df ->
  length (df_columns df) = 2 ->
  calculate_quality_score m i s (VDataFrame df) = 100%Z.
Proof.
  intros Hm Hi Hd Hs Hrows Hcols.
  rewrite score_decompose, metrics_points_length, insights_points_length.
  assert (Hn : insights_with_numbers i = 5).
  { unfold insights_with_numbers. rewrite <- Hi. f_equal.
    rewrite List.Forall_forall in Hd.
    apply forallb_filter_id, forallb_forall. intros x Hx. apply Hd, Hx. }
  rewrite Hm, Hi, Hn. unfold summary_fifths, result_points.
  destruct s as [|c s']; [discriminate|]. cbn [Py.truthy_str]. rewrite Hs, Hcols.
  destruct (df_len df) as [|n]; [lia|]. reflexivity.
Qed.

Lemma full_marks_scenario_witness :
  calculate_quality_score five_metrics five_insights summary_120
    (VDataFrame two_column_table) = 100%Z.
Proof.
  apply full_marks_scenario.
  - reflexivity.
  - reflexivity.
  - repeat constructor.
  - reflexivity.
  - cbn. lia.
  - reflexivity.
Defined.

(** C10: the score never decreases when an entry is set in the metrics
    dictionary, nor when a string is appended to the insights. *)
Theorem score_monotone
    (m : Metrics) (i : list string) (s : string) (r : PyVal)
    (k : string) (v : option Scalar) (x : string) :
  (calculate_quality_score m i s r <= calculate_quality_score (dict_set k v m) i s r)%Z
  /\ (calculate_quality_score m i s r <= calculate_quality_score m (i ++ [x])%list s r)%Z.
Proof.
  rewrite !score_decompose, !metrics_points_length, !insights_points_length.
  rewrite insights_with_numbers_app, length_app. cbn [length].
  pose proof (dict_set_length k v m). lia.
Qed.

(** ** Relevance selector *)

Lemma insert_desc_perm x l : Permutation (insert_desc x l) (x :: l).
Proof.
  induction l as [|y r IH]; cbn [insert_desc]; [reflexivity|].
  destruct (snd x <? snd y)%Z; [|reflexivity].
  rewrite IH. apply perm_swap.
Qed.

Lemma sorted_desc_perm l : Permutation (sorted_desc l) l.
Proof.
  induction l as [|x l IH]; cbn [sorted_desc fold_right]; [reflexivity|].
  fold (sorted_desc l). rewrite insert_desc_perm, IH. reflexivity.
Qed.

Lemma insert_desc_sorted x l :
  StronglySorted desc l -> StronglySorted desc (insert_desc x l).
Proof.
  induction 1 as [|y r Hr IH Hy]; cbn [insert_desc].
  - repeat constructor.
  - destruct (snd x <? snd y)%Z eqn:E.
    + apply Z.ltb_lt in E. constructor; [exact IH|].
      rewrite List.Forall_forall in *. intros z Hz.
      apply (Permutation_in _ (insert_desc_perm x r)) in Hz.
      destruct Hz as [<-|Hz]; [unfold desc; lia | apply Hy, Hz].
    + apply Z.ltb_ge in E. constructor; [constructor; assumption|].
      constructor; [exact E|].
      rewrite List.Forall_forall in *. intros z Hz.
      specialize (Hy z Hz). unfold desc in *. lia.
Qed.

Lemma sorted_desc_sorted l : StronglySorted desc (sorted_desc l).
Proof.
  induction l as [|x l IH]; cbn [sorted_desc fold_right]; [constructor|].
  apply insert_desc_sorted, IH.
Qed.

(** Stability: items of equal score keep their order. *)
Lemma insert_desc_stable k x l :
  List.filter (scored k) (insert_desc x l) = List.filter (scored k) (x :: l).
Proof.
  induction l as [|y r IH]; cbn [insert_desc]; [reflexivity|].
  destruct (snd x <? snd y)%Z eqn:E; [|reflexivity].
  apply Z.ltb_lt in E. cbn [List.filter] in *. rewrite IH. unfold scored.
  destruct (snd y =? k)%Z eqn:Ey, (snd x =? k)%Z eqn:Ex; try reflexivity.
  apply Z.eqb_eq in Ey, Ex. lia.
Qed.

Lemma sorted_desc_stable k l :
  List.filter (scored k) (sorted_desc l) = List.filter (scored k) l.
Proof.
  induction l as [|x l IH]; cbn [sorted_desc fold_right]; [reflexivity|].
  fold (sorted_desc l). rewrite insert_desc_stable. cbn [List.filter]. rewrite IH. reflexivity.
Qed.

Lemma filter_perm {A : Type} (p : A -> bool) (l l' : list A) :
  Permutation l l' -> Permutation (List.filter p l) (List.filter p l').
Proof.
  induction 1 as [|x l l' _ IH|x y l|l l' l'' _ IH1 _ IH2]; cbn [List.filter].
  - reflexivity.
  - destruct (p x); [apply perm_skip|]; exact IH.
  - destruct (p x), (p y); try reflexivity. apply perm_swap.
  - etransitivity; eassumption.
Qed.

Lemma filter_sorted {A : Type} (R : A -> A -> Prop) (p : A -> bool) (l : list A) :
  StronglySorted R l -> StronglySorted R (List.filter p l).
Proof.
  induction 1 as [|x l Hl IH Hx]; cbn [List.filter]; [constructor|].
  destruct (p x); [|exact IH]. constructor; [exact IH|].
  rewrite List.Forall_forall in *. intros y Hy. apply List.filter_In in Hy. apply Hx, Hy.
Qed.

Lemma filter_comm {A : Type} (p q : A -> bool) (l : list A) :
  List.filter p (List.filter q l) = List.filter q (List.filter p l).
Proof.
  induction l as [|x l IH]; [reflexivity|]. cbn [List.filter].
  destruct (p x) eqn:Ep, (q x) eqn:Eq; cbn [List.filter]; rewrite ?Ep, ?Eq, IH; reflexivity.
Qed.

Lemma fold_left_grows {A : Type} (f : Z -> A -> Z) (l : list A) (z : Z) :
  (forall s a, s <= f s a)%Z -> (z <= fold_left f l z)%Z.
Proof.
  intros Hf. revert z. induction l as [|a l IH]; intros z; cbn [fold_left]; [lia|].
  specialize (IH (f z a)). specialize (Hf z a). lia.
Qed.

Lemma column_step_grows ql qw score col : (score <= column_step ql qw score col)%Z.
Proof.
  unfold column_step. cbv zeta.
  etransitivity; [|apply fold_left_grows].
  - destruct (Py.contains _ ql); lia.
  - intros s a. repeat case_if; lia.
Qed.

(** No table scores below zero. *)
Lemma table_score_nonneg ql qw name df : (0 <= table_score ql qw name df)%Z.
Proof.
  unfold table_score. cbv zeta.
  assert (H : (0 <= fold_left (column_step ql qw) (df_columns df)
                     (if Py.contains (Py.lower (Py.replace "_" " " (Py.replace "df_" "" name))) ql
                      then 0 + 100 else 0))%Z).
  { etransitivity; [|apply fold_left_grows, column_step_grows]. case_if; lia. }
  case_if; lia.
Qed.

Lemma dict_set_Forall {V : Type} (P : string * V -> Prop) k v (d : list (string * V)) :
  P (k, v) -> Forall P d -> Forall P (dict_set k v d).
Proof.
  intros Hk. induction 1 as [|[k' v'] d Hx Hd IH]; cbn [dict_set].
  - repeat constructor. exact Hk.
  - destruct (String.eqb k k'); constructor; assumption.
Qed.

Lemma dict_set_fresh {V : Type} k v (d : list (string * V)) :
  ~ In k (map fst d) -> dict_set k v d = (d ++ [(k, v)])%list.
Proof.
  induction d as [|[k' v'] d IH]; cbn [dict_set map fst In app]; [reflexivity|].
  intros Hk. destruct (String.eqb k k') eqn:E.
  - apply String.eqb_eq in E. subst. tauto.
  - rewrite IH; [reflexivity | tauto].
Qed.

Lemma relevance_scores_nonneg q d :
  Forall (fun item => (0 <= snd item)%Z) (relevance_scores q d).
Proof.
  unfold relevance_scores. cbv zeta.
  set (f := fun scores item => dict_set _ _ scores).
  assert (H : forall acc, Forall (fun item : string * Z => (0 <= snd item)%Z) acc ->
                          Forall (fun item : string * Z => (0 <= snd item)%Z) (fold_left f d acc)).
  { induction d as [|x d IH]; intros acc Hacc; cbn [fold_left]; [exact Hacc|].
    apply IH. apply dict_set_Forall; [apply table_score_nonneg | exact Hacc]. }
  apply H. constructor.
Qed.

(** With distinct table names, every assignment to [relevance_scores] adds an
    entry: the dictionary lists the tables in their order, each with its
    score. *)
Lemma relevance_scores_distinct q d :
  List.NoDup (map fst d) ->
  relevance_scores q d
  = map (fun item : string * DataFrame =>
           (fst item,
            table_score (Py.lower q) (list_to_set (Py.split (Py.lower q)))
              (fst item) (snd item))) d.
Proof.
  unfold relevance_scores. cbv zeta.
  set (g := fun item : string * DataFrame => (fst item, table_score _ _ (fst item) (snd item))).
  set (f := fun scores item => dict_set _ _ scores).
  assert (H : forall acc : list (string * Z),
             List.NoDup (map fst acc ++ map fst d) ->
             fold_left f d acc = (acc ++ map g d)%list).
  { induction d as [|x d IH]; intros acc Hnd; cbn [fold_left map].
    - symmetry. apply app_nil_r.
    - cbn [map] in Hnd. unfold f at 2. rewrite dict_set_fresh.
      + rewrite IH.
        * rewrite <- app_assoc. reflexivity.
        * rewrite map_app. cbn [map fst]. rewrite <- app_assoc. exact Hnd.
      + apply NoDup_remove_2 in Hnd. intros Hin. apply Hnd, in_or_app. left. exact Hin. }
  intros Hnd. apply (H []). exact Hnd.
Qed.

Lemma all_zero_dec (l : list (string * Z)) :
  {Forall (fun item => snd item = 0%Z) l} + {~ Forall (fun item => snd item = 0%Z) l}.
Proof. apply Forall_dec. intros item. apply Z.eq_dec. Qed.

Lemma ranked_empty_iff q d :
  List.filter positive (sorted_desc (relevance_scores q d)) = []
  <-> Forall (fun item => snd item = 0%Z) (relevance_scores q d).
Proof.
  pose proof (relevance_scores_nonneg q d) as Hnn.
  pose proof (sorted_desc_perm (relevance_scores q d)) as Hp.
  rewrite List.Forall_forall in *. split.
  - intros Hnil item Hin.
    destruct (positive item) eqn:E.
    + assert (Hr : In item (List.filter positive (sorted_desc (relevance_scores q d)))).
      { apply List.filter_In. split; [|exact E].
        apply (Permutation_in _ (Permutation_sym Hp)), Hin. }
      rewrite Hnil in Hr. destruct Hr.
    + unfold positive in E. apply Z.ltb_ge in E. specialize (Hnn item Hin). lia.
  - intros Hz.
    destruct (List.filter positive (sorted_desc (relevance_scores q d))) as [|item l] eqn:E;
      [reflexivity|].
    assert (Hr : In item (List.filter positive (sorted_desc (relevance_scores q d)))).
    { rewrite E. left. reflexivity. }
    apply List.filter_In in Hr. destruct Hr as [Hin Hpos].
    apply (Permutation_in _ Hp) in Hin. specialize (Hz item Hin).
    unfold positive in Hpos. apply Z.ltb_lt in Hpos. lia.
Qed.

(** C2 (amended): when every table scores zero the selector returns all
    table names in their original order.  Otherwise it returns exactly the
    names with a positive score, larger scores first, tables of equal score
    in their original order; this is again every table name when all scores
    are positive. *)
Theorem relevance_selection (q : string) (d : list (string * DataFrame)) :
  let scores := relevance_scores q d in
  let ranked := List.filter positive (sorted_desc scores) in
  (Forall (fun item => snd item = 0%Z) scores ->
   analyze_query_relevance q d = map fst d)
  /\ (~ Forall (fun item => snd item = 0%Z) scores ->
      analyze_query_relevance q d = map fst ranked /\ ranked <> [])
  /\ Permutation ranked (List.filter positive scores)
  /\ StronglySorted desc ranked
  /\ (forall k,
        List.filter (scored k) ranked
        = List.filter (scored k) (List.filter positive scores))
  /\ (List.NoDup (map fst d) ->
      scores = map (fun item : string * DataFrame =>
                      (fst item,
                       table_score (Py.lower q) (list_to_set (Py.split (Py.lower q)))
                         (fst item) (snd item))) d).
Proof.
  cbv zeta. split; [|split; [|split; [|split; [|split]]]].
  - intros Hz. apply ranked_empty_iff in Hz.
    unfold analyze_query_relevance. cbv zeta. fold positive. rewrite Hz. reflexivity.
  - intros Hnz.
    destruct (List.filter positive (sorted_desc (relevance_scores q d))) as [|item l] eqn:E.
    + apply ranked_empty_iff in E. contradiction.
    + split; [|discriminate].
      unfold analyze_query_relevance. cbv zeta. fold positive. rewrite E. reflexivity.
  - apply filter_perm, sorted_desc_perm.
  - apply filter_sorted, sorted_desc_sorted.
  - intros k. rewrite filter_comm, sorted_desc_stable, filter_comm. reflexivity.
  - apply relevance_scores_distinct.
Qed.

Lemma relevance_selection_witness :
  analyze_query_relevance "hello" [("df_customers", customers_table); ("df_sales", two_column_table)]
  = ["df_customers"; "df_sales"]
  /\ analyze_query_relevance "total sales by region"
       [("df_customers", customers_table); ("df_sales", two_column_table)]
     = ["df_sales"; "df_customers"]
  /\ relevance_scores "total sales by region"
       [("df_customers", customers_table); ("df_sales", two_column_table)]
     = [("df_customers", 5%Z); ("df_sales", 185%Z)].
Proof.
  split; [|split].
  - apply (proj1 (relevance_selection "hello"
                    [("df_customers", customers_table); ("df_sales", two_column_table)])).
    vm_compute. repeat constructor.
  - apply (proj1 (proj2 (relevance_selection "total sales by region"
                    [("df_customers", customers_table); ("df_sales", two_column_table)]))).
    vm_compute. intros H. inversion H as [|? ? H0 _]. discriminate H0.
  - rewrite (proj2 (proj2 (proj2 (proj2 (proj2 (relevance_selection "total sales by region"
                    [("df_customers", customers_table); ("df_sales", two_column_table)])))))).
    + vm_compute. reflexivity.
    + repeat constructor; cbn; intuition discriminate.
Defined.

(** C2 (as stated) fails in the direction "a permutation of all names only
    if every table scored zero": for the query below both tables score above
    zero (5 and 185), and the selector returns both names, the better one
    first. *)
Lemma relevance_iff_counterexample :
  let q := "total sales by region" in
  let d := [("df_customers", customers_table); ("df_sales", two_column_table)] in
  analyze_query_relevance q d = ["df_sales"; "df_customers"]
  /\ Permutation (analyze_query_relevance q d) (map fst d)
  /\ relevance_scores q d = [("df_customers", 5%Z); ("df_sales", 185%Z)]
  /\ ~ Forall (fun item => snd item = 0%Z) (relevance_scores q d).
Proof.
  cbv zeta. split; [|split; [|split]].
  - vm_compute. reflexivity.
  - vm_compute. apply perm_swap.
  - vm_compute. reflexivity.
  - vm_compute. intros H. inversion H as [|? ? H0 _]. discriminate H0.
Qed.

(** ** Executor, static validator and review step *)

Lemma In_append_keep (x y : string) (l : list string) : In x l -> In x (Py.append l y).
Proof. intros H. unfold Py.append. apply in_or_app. left. exact H. Qed.

Lemma In_append_new (y : string) (l : list string) : In y (Py.append l y).
Proof. unfold Py.append. apply in_or_app. right. left. reflexivity. Qed.

Lemma In_append_if_keep (c : bool) (x y : string) (l : list string) :
  In x l -> In x (append_if c y l).
Proof. intros H. unfold append_if. destruct c; [apply In_append_keep|]; exact H. Qed.

Lemma In_append_if_new (c : bool) (y : string) (l : list string) :
  c = true -> In y (append_if c y l).
Proof. intros ->. apply In_append_new. Qed.

(** A loop of conditional appends keeps what was there and adds the message
    of every element whose condition holds. *)
Lemma In_fold_append_if_keep {A : Type} (c : A -> bool) (msg : A -> string)
    (xs : list A) (acc : list string) (y : string) :
  In y acc -> In y (fold_left (fun acc x => append_if (c x) (msg x) acc) xs acc).
Proof.
  revert acc. induction xs as [|x xs IH]; intros acc H; cbn [fold_left]; [exact H|].
  apply IH, In_append_if_keep, H.
Qed.

Lemma In_fold_append_if_new {A : Type} (c : A -> bool) (msg : A -> string)
    (xs : list A) (acc : list string) (x : A) :
  In x xs -> c x = true ->
  In (msg x) (fold_left (fun acc x => append_if (c x) (msg x) acc) xs acc).
Proof.
  revert acc. induction xs as [|x' xs IH]; intros acc Hin Hc; [destruct Hin|].
  cbn [fold_left]. destruct Hin as [->|Hin].
  - apply In_fold_append_if_keep, In_append_if_new, Hc.
  - apply IH; assumption.
Qed.

(** ** The validator on arbitrary objects *)






(** The four sample programs of the second interpreter, run by the
    executor. *)
Example executor_on_string_insights :
  execute_generated_code sample_exec_full
    "result = 1; metrics = {'rows': 3}; summary_text = 'ok'; insights = 'abc'" [] sample_world
  = (Returned {| er_result := VNum 1;
                 er_metrics := VDict [("rows", Some (SNum 3))];
                 er_summary_text := VStr "ok";
                 er_insights := VStr "abc";
                 er_output_text := "";
                 er_is_valid := true;
                 er_validation_issues :=
                   ["⚠️ Only 1 metrics provided, recommended minimum is 5";
                    "⚠️ Summary text is very short (less than 50 characters)";
                    "⚠️ Only 3 insights provided, recommended minimum is 5";
                    "⚠️ Many insights lack specific numbers - they should include concrete data"] |},
     set_stdout 1 (redirected sample_world)).
Proof. vm_compute. reflexivity. Qed.

Example executor_on_closed_buffer :
  execute_generated_code sample_exec_full "import sys; sys.stdout.close()" [] sample_world
  = (Raised {| exc_class := ValueError; exc_str := "I/O operation on closed file" |},
     set_stdout 1 (close 2 (redirected sample_world))).
Proof. vm_compute. reflexivity. Qed.

Example validator_on_other_objects :
  validate_execution_results_obj (VNum 1) (VStr "abc") (VStr "ok") (VList ["x1"])
  = Raised {| exc_class := AttributeError;
              exc_str := "'str' object has no attribute 'items'" |}
  /\ validate_execution_results_obj (VNum 1) (VDict five_metrics) (VNum 5) (VList ["x1"])
     = Raised {| exc_class := AttributeError;
                 exc_str := "'int' object has no attribute 'strip'" |}
  /\ validate_execution_results_obj (VNum 1) (VDict five_metrics) (VStr "ok") (VModule "io")
     = Raised {| exc_class := TypeError;
                 exc_str := "object of type 'module' has no len()" |}
  /\ validate_execution_results_obj (VNum 1) (VDict five_metrics) (VStr "ok") VNone
     = Returned (false, ["⚠️ Summary text is very short (less than 50 characters)";
                         "❌ Insights list is empty"]).
Proof. repeat split; vm_compute; reflexivity. Qed.

Section PipelineFacts.

Variable exec_ :
  string -> gmap string PyVal -> gmap string PyVal -> World ->
  PyOutcome (gmap string PyVal) * World.
Variable re_search : string -> string -> bool -> option ReMatch.
Variable ast_parse : string -> PyOutcome unit.

(** C1: when running the code raises, [execute_generated_code] raises the
    same exception, returns no result structure, and leaves [sys.stdout]
    as it found it, whatever the code did to it. *)
Theorem execute_raises
    (code : string) (dataframes_dict : list (string * DataFrame)) (w w' : World) (e : PyExc) :
  exec_ code exec_globals (initial_locals dataframes_dict) (redirected w) = (Raised e, w') ->
  execute_generated_code exec_ code dataframes_dict w
  = (Raised e, set_stdout (sys_stdout w) w')
  /\ sys_stdout (set_stdout (sys_stdout w) w') = sys_stdout w.
Proof.
  intros Hexec. split; [|reflexivity].
  unfold execute_generated_code, redirected, new_StringIO in *.
  cbv beta iota zeta in *. rewrite Hexec.
  destruct (is_Exception e); reflexivity.
Qed.


(** The static validator returns whenever the parser returns or raises an
    [Exception]. *)
Lemma validate_code_returns (code : string) (available_dfs : list string) :
  (forall e, ast_parse code = Raised e -> is_Exception e = true) ->
  exists issues, validate_code re_search ast_parse code available_dfs = Returned issues.
Proof.
  intros Hparse. unfold validate_code. cbv zeta.
  destruct (ast_parse code) as [u|e]; [eexists; reflexivity|].
  destruct (is_SyntaxError e); [eexists; reflexivity|].
  rewrite (Hparse e eq_refl). eexists; reflexivity.
Qed.

Lemma validate_code_flags_import (code : string) (available_dfs : list string)
    (imp : string) (issues : list string) :
  validate_code re_search ast_parse code available_dfs = Returned issues ->
  In imp dangerous_imports ->
  Py.contains ("import " ++ imp) code || Py.contains ("from " ++ imp) code = true ->
  In (security_import_issue imp) issues.
Proof.
  intros Hret Himp Hc. unfold validate_code in Hret. cbv zeta in Hret.
  match type of Hret with
  | context [fold_left ?f dangerous_imports []] =>
      assert (Hfold : In (security_import_issue imp) (fold_left f dangerous_imports []))
  end.
  { apply (In_fold_append_if_new
             (fun imp => Py.contains ("import " ++ imp) code
                         || Py.contains ("from " ++ imp) code)
             security_import_issue); assumption. }
  destruct (ast_parse code) as [u|e]; [|destruct (is_SyntaxError e); [|destruct (is_Exception e)]];
    try discriminate Hret; injection Hret as <-; in_left;
    try apply In_append_keep; do 5 apply In_append_if_keep; exact Hfold.
Qed.

(** C7: a code string with an import form of a denylisted name gets the
    security issue for that name in the list the validator returns, so the
    list is not empty; and the review step still runs the code when the user
    presses execute: the issues are shown, not enforced.  The parser is
    taken to raise nothing outside [Exception]. *)
Theorem denylisted_import_flagged (code imp : string) :
  In imp dangerous_imports ->
  Py.contains ("import " ++ imp) code = true \/ Py.contains ("from " ++ imp) code = true ->
  (forall e, ast_parse code = Raised e -> is_Exception e = true) ->
  String.prefix "🚫 SECURITY:" (security_import_issue imp) = true
  /\ (forall available_dfs, exists issues,
        validate_code re_search ast_parse code available_dfs = Returned issues
        /\ issues <> []
        /\ In (security_import_issue imp) issues)
  /\ (forall dataframes w, exists issues,
        review_step exec_ re_search ast_parse code dataframes true false w
        = Returned (issues, Executed (execute_generated_code exec_ code dataframes w))
        /\ In (security_import_issue imp) issues).
Proof.
  intros Himp Hc Hparse.
  assert (Hc' : Py.contains ("import " ++ imp) code || Py.contains ("from " ++ imp) code = true).
  { apply orb_true_iff. exact Hc. }
  split; [reflexivity|]. split.
  - intros available_dfs.
    destruct (validate_code_returns code available_dfs Hparse) as [issues Hret].
    pose proof (validate_code_flags_import code available_dfs imp issues Hret Himp Hc') as Hin.
    exists issues. split; [exact Hret|]. split; [|exact Hin].
    intros ->. destruct Hin.
  - intros dataframes w.
    destruct (validate_code_returns code (map fst dataframes) Hparse) as [issues Hret].
    exists issues. split.
    + unfold review_step. cbv zeta. rewrite Hret. reflexivity.
    + exact (validate_code_flags_import code _ imp issues Hret Himp Hc').
Qed.

(** C8: when the parser raises on the code, the validator does not raise:
    it returns its list, with the syntax-error issue in it for a
    [SyntaxError] and the could-not-parse warning for any other
    [Exception]. *)
Theorem parse_failure_reported (code : string) (available_dfs : list string) (e : PyExc) :
  ast_parse code = Raised e ->
  (is_SyntaxError e = true ->
   exists issues,
     validate_code re_search ast_parse code available_dfs = Returned issues
     /\ In ("🚫 SYNTAX ERROR: " ++ exc_str e) issues)
  /\ (is_SyntaxError e = false -> is_Exception e = true ->
      exists issues,
        validate_code re_search ast_parse code available_dfs = Returned issues
        /\ In ("⚠️ Could not parse code: " ++ exc_str e) issues).
Proof.
  intros Hparse. split.
  - intros Hsyn. unfold validate_code. cbv zeta. rewrite Hparse, Hsyn.
    eexists. split; [reflexivity|]. in_left. apply In_append_new.
  - intros Hsyn Hexc. unfold validate_code. cbv zeta. rewrite Hparse, Hsyn, Hexc.
    eexists. split; [reflexivity|]. in_right.
    do 2 apply In_append_if_keep. apply In_append_new.
Qed.

End PipelineFacts.

Lemma execute_raises_witness :
  execute_generated_code sample_exec
    "import sys; print('bye'); sys.stdout = sys.stderr; raise SystemExit(2)" [("df_sales", two_column_table)]
    sample_world
  = (Raised {| exc_class := SystemExit; exc_str := "2" |},
     set_stdout 1 (set_stdout 0 (write 2 ("bye" ++ newline) (redirected sample_world))))
  /\ execute_generated_code sample_exec "import os; result = 1/0" [] sample_world
     = (Raised {| exc_class := ZeroDivisionError; exc_str := "division by zero" |},
        set_stdout 1 (redirected sample_world)).
Proof.
  split.
  - apply (execute_raises sample_exec
             "import sys; print('bye'); sys.stdout = sys.stderr; raise SystemExit(2)"
             [("df_sales", two_column_table)] sample_world). reflexivity.
  - apply (execute_raises sample_exec "import os; result = 1/0" [] sample_world).
    reflexivity.
Defined.



Lemma denylisted_import_flagged_witness :
  exists issues,
    review_step sample_exec sample_re_search sample_ast_parse
      "import os; result = 1/0" [("df_sales", two_column_table)] true false sample_world
    = Returned (issues,
                Executed (execute_generated_code sample_exec "import os; result = 1/0"
                            [("df_sales", two_column_table)] sample_world))
    /\ In "🚫 SECURITY: Code tries to import 'os' (not allowed)" issues.
Proof.
  assert (Hparse : forall e, sample_ast_parse "import os; result = 1/0" = Raised e ->
                             is_Exception e = true).
  { intros e H. discriminate H. }
  apply (proj2 (proj2 (denylisted_import_flagged sample_exec sample_re_search sample_ast_parse
                         "import os; result = 1/0" "os"
                         (or_introl eq_refl) (or_introl eq_refl) Hparse))).
Defined.

Lemma parse_failure_reported_witness :
  exists issues,
    validate_code sample_re_search sample_ast_parse "result = (" ["df_sales"] = Returned issues
    /\ In "🚫 SYNTAX ERROR: '(' was never closed (<unknown>, line 1)" issues.
Proof.
  apply (proj1 (parse_failure_reported sample_re_search sample_ast_parse "result = ("
                  ["df_sales"] _ eq_refl)). reflexivity.
Defined.

(** * Further properties *)

(** ** Scorer and validator together *)

(** X1: the score lies between 0 and 100, whatever the artifacts. *)
Theorem score_range (m : Metrics) (i : list string) (s : string) (r : PyVal) :
  (0 <= calculate_quality_score m i s r <= 100)%Z.
Proof.
  rewrite score_decompose.
  pose proof (metrics_points_bounds m). pose proof (insights_points_bounds i).
  pose proof (summary_fifths_bounds s). pose proof (result_points_bounds r).
  assert ((0 <= summary_fifths s / 5 <= 20)%Z).
  { split; [apply Z.div_pos; lia | apply Z.div_le_upper_bound; lia]. }
  lia.
Qed.

Lemma summary_fifths_full s :
  (summary_fifths s / 5 = 20)%Z <-> 100 <= String.length s.
Proof.
  pose proof (summary_fifths_bounds s) as Hb. unfold summary_fifths in *.
  destruct s as [|c s']; cbn [Py.truthy_str] in *.
  - cbn. split; [discriminate | lia].
  - destruct (100 <=? String.length (String c s')) eqn:E.
    + apply Nat.leb_le in E. split; [intros _; exact E | reflexivity].
    + apply Nat.leb_gt in E. split; [|lia]. intros H.
      assert (Z.of_nat (String.length (String c s')) / 5 < 20)%Z.
      { apply Z.div_lt_upper_bound; lia. }
      lia.
Qed.

Lemma result_points_full r :
  result_points r = 20%Z
  <-> exists df, r = VDataFrame df /\ 0 < df_len df /\ 1 < length (df_columns df).
Proof.
  split.
  - destruct r; cbn [result_points]; try discriminate.
    destruct (0 <? df_len df) eqn:E1; [|discriminate].
    destruct (1 <? length (df_columns df)) eqn:E2; [|discriminate].
    intros _. exists df. apply Nat.ltb_lt in E1, E2. auto.
  - intros (df & -> & H1 & H2). cbn [result_points].
    apply Nat.ltb_lt in H1, H2. rewrite H1, H2. reflexivity.
Qed.

(** X2: the score is 100 exactly when every artifact is at its best: five
    metrics or more, five insights or more with five of them showing a
    digit, a summary of 100 characters or more, and a DataFrame with rows
    and more than one column. *)
Theorem full_marks_iff (m : Metrics) (i : list string) (s : string) (r : PyVal) :
  calculate_quality_score m i s r = 100%Z
  <-> 5 <= length m
      /\ 5 <= length i
      /\ 5 <= insights_with_numbers i
      /\ 100 <= String.length s
      /\ exists df, r = VDataFrame df /\ 0 < df_len df /\ 1 < length (df_columns df).
Proof.
  rewrite score_decompose, <- summary_fifths_full, <- result_points_full.
  pose proof (result_points_bounds r). pose proof (summary_fifths_bounds s).
  assert ((0 <= summary_fifths s / 5 <= 20)%Z).
  { split; [apply Z.div_pos; lia | apply Z.div_le_upper_bound; lia]. }
  rewrite metrics_points_length, insights_points_length. lia.
Qed.

(** X3: artifacts on which the validator finds nothing to report are valid,
    score at least 76, and are never shown as needing work. *)
Theorem clean_validation_scores_well
    (r : PyVal) (m : Metrics) (s : string) (i : list string) :
  snd (validate_execution_results r m s i) = [] ->
  fst (validate_execution_results r m s i) = true
  /\ (76 <= calculate_quality_score m i s r)%Z
  /\ quality_band (calculate_quality_score m i s r) <> NeedsWork.
Proof.
  rewrite validate_issues, validate_is_valid. intros H.
  repeat (apply app_eq_nil in H; destruct H as [H ?]).
  destruct (is_None r) eqn:Hr; [discriminate|].
  destruct (sized_and_empty r) eqn:Hre; [discriminate|].
  destruct (Py.truthy_list m) eqn:Hm; [|discriminate].
  destruct (length m <? 5) eqn:Hm5; [discriminate|].
  destruct (summary_missing s) eqn:Hs; [discriminate|].
  destruct (String.length s <? 50) eqn:Hs50; [discriminate|].
  destruct (Py.truthy_list i) eqn:Hi; [|discriminate].
  destruct (length i <? 5) eqn:Hi5; [discriminate|].
  destruct (5 * insights_with_numbers i <? 3 * length i) eqn:Hn; [discriminate|].
  apply Nat.ltb_ge in Hm5, Hs50, Hi5, Hn.
  split; [reflexivity|].
  assert (Hscore : (76 <= calculate_quality_score m i s r)%Z).
  { rewrite score_decompose, metrics_points_length, insights_points_length.
    assert (Hsum : (10 <= summary_fifths s / 5)%Z).
    { unfold summary_fifths. destruct s as [|c s']; [cbn in Hs50; lia|].
      cbn [Py.truthy_str].
      destruct (100 <=? String.length (String c s')); apply Z.div_le_lower_bound; lia. }
    assert (Hres : (10 <= result_points r)%Z).
    { destruct r; cbn [result_points]; try lia; try discriminate.
      unfold sized_and_empty in Hre. cbn [py_len] in Hre.
      destruct (df_len df); [discriminate|]. cbn [Nat.ltb Nat.leb].
      case_if; lia. }
    lia. }
  split; [exact Hscore|].
  unfold quality_band. destruct (80 <=? calculate_quality_score m i s r)%Z; [discriminate|].
  destruct (60 <=? calculate_quality_score m i s r)%Z eqn:E; [discriminate|].
  apply Z.leb_gt in E. lia.
Qed.

Lemma clean_validation_scores_well_witness :
  fst (validate_execution_results (VDataFrame two_column_table) five_metrics
         summary_120 five_insights) = true
  /\ (76 <= calculate_quality_score five_metrics five_insights summary_120
              (VDataFrame two_column_table))%Z
  /\ quality_band (calculate_quality_score five_metrics five_insights summary_120
                     (VDataFrame two_column_table)) <> NeedsWork.
Proof.
  apply clean_validation_scores_well. vm_compute. reflexivity.
Defined.

(** X4: the verdict can be read off the issue list: it is false exactly when
    one of the four hard messages is in the list; and the list never holds
    more than six issues. *)
Theorem verdict_shows_in_issues
    (r : PyVal) (m : Metrics) (s : string) (i : list string) :
  (fst (validate_execution_results r m s i) = false
   <-> exists msg, In msg hard_messages /\ In msg (snd (validate_execution_results r m s i)))
  /\ length (snd (validate_execution_results r m s i)) <= 6.
Proof.
  rewrite validate_issues, validate_is_valid. split.
  - rewrite !andb_false_iff, !negb_false_iff. split.
    + intros [[[H|H]|H]|H]; rewrite ?H.
      * exists "❌ Result is None". split; [cbn; tauto|]. do 5 in_left. left. reflexivity.
      * exists "❌ Metrics dictionary is empty". split; [cbn; tauto|].
        do 4 in_left. in_right. cbn [negb]. left. reflexivity.
      * exists "❌ Summary text is empty". split; [cbn; tauto|].
        do 2 in_left. in_right. left. reflexivity.
      * exists "❌ Insights list is empty". split; [cbn; tauto|].
        in_left. in_right. cbn [negb]. left. reflexivity.
    + intros (msg & Hhard & Hin).
      repeat (apply in_app_or in Hin; destruct Hin as [Hin|Hin]).
      * destruct (is_None r); [tauto|]. exfalso.
        destruct (sized_and_empty r); [|destruct Hin].
        destruct Hin as [<-|[]]. cbn in Hhard. intuition discriminate.
      * destruct (Py.truthy_list m); [|tauto]. exfalso. cbn [negb] in Hin.
        destruct (length m <? 5); [|destruct Hin].
        destruct Hin as [<-|[]]. cbn in Hhard. intuition discriminate.
      * exfalso. destruct (Py.truthy_list m && Py.truthy_list (none_metrics m));
          [|destruct Hin].
        destruct Hin as [<-|[]]. cbn in Hhard. intuition discriminate.
      * destruct (summary_missing s); [tauto|]. exfalso.
        destruct (String.length s <? 50); [|destruct Hin].
        destruct Hin as [<-|[]]. cbn in Hhard. intuition discriminate.
      * destruct (Py.truthy_list i); [|tauto]. exfalso. cbn [negb] in Hin.
        destruct (length i <? 5); [|destruct Hin].
        destruct Hin as [<-|[]]. cbn in Hhard. intuition discriminate.
      * exfalso.
        destruct (Py.truthy_list i && (5 * insights_with_numbers i <? 3 * length i));
          [|destruct Hin].
        destruct Hin as [<-|[]]. cbn in Hhard. intuition discriminate.
  - rewrite !length_app.
    repeat match goal with
           | |- context [length (if ?c then _ else _)] => destruct c; cbn [length]
           end; lia.
Qed.

(** X5: without metrics or without insights the score is at most 70 and the
    band is never the best one; without a result the score is at most 80. *)
Theorem missing_artifact_caps_score
    (m : Metrics) (i : list string) (s : string) (r : PyVal) :
  (m = [] \/ i = [] ->
   (calculate_quality_score m i s r <= 70)%Z
   /\ quality_band (calculate_quality_score m i s r) <> Excellent)
  /\ (r = VNone -> (calculate_quality_score m i s r <= 80)%Z).
Proof.
  pose proof (metrics_points_bounds m). pose proof (insights_points_bounds i).
  pose proof (summary_fifths_bounds s). pose proof (result_points_bounds r).
  assert ((0 <= summary_fifths s / 5 <= 20)%Z).
  { split; [apply Z.div_pos; lia | apply Z.div_le_upper_bound; lia]. }
  rewrite score_decompose. split.
  - intros Hmi.
    assert (Hle : (metrics_points m + insights_points i + result_points r
                   + summary_fifths s / 5 <= 70)%Z).
    { destruct Hmi as [-> | ->]; cbn [metrics_points insights_points Py.truthy_list] in *; lia. }
    split; [exact Hle|]. unfold quality_band.
    destruct (80 <=? _)%Z eqn:E; [apply Z.leb_le in E; lia|].
    destruct (60 <=? _)%Z; discriminate.
  - intros ->. cbn [result_points]. lia.
Qed.

Lemma missing_artifact_caps_score_witness :
  (calculate_quality_score [] five_insights summary_120 (VDataFrame two_column_table) <= 70)%Z
  /\ (calculate_quality_score five_metrics five_insights summary_120 VNone <= 80)%Z.
Proof.
  split.
  - apply (proj1 (missing_artifact_caps_score [] five_insights summary_120
                    (VDataFrame two_column_table))). left. reflexivity.
  - apply (proj2 (missing_artifact_caps_score five_metrics five_insights summary_120 VNone)).
    reflexivity.
Defined.

(** ** The executor's namespace and its exits *)

Lemma initial_bindings_other (d : list (string * DataFrame)) (base : gmap string PyVal)
    (k : string) :
  ~ In k (map fst d) ->
  fold_left
    (fun (local_vars : gmap string PyVal) (item : string * DataFrame) =>
       <[fst item := VDataFrame (snd item)]> local_vars) d base !! k
  = base !! k.
Proof.
  revert base. induction d as [|x d IH]; intros base Hk; cbn [fold_left]; [reflexivity|].
  cbn [map In] in Hk. rewrite IH by tauto.
  apply lookup_insert_ne. intros Heq. apply Hk. left. exact Heq.
Qed.

Lemma initial_bindings_table (d : list (string * DataFrame)) (base : gmap string PyVal)
    (k : string) (df : DataFrame) :
  List.NoDup (map fst d) -> In (k, df) d ->
  fold_left
    (fun (local_vars : gmap string PyVal) (item : string * DataFrame) =>
       <[fst item := VDataFrame (snd item)]> local_vars) d base !! k
  = Some (VDataFrame df).
Proof.
  revert base. induction d as [|x d IH]; intros base Hnd Hin; [destruct Hin|].
  cbn [fold_left]. cbn [map] in Hnd. inversion Hnd as [|? ? Hx Hd]; subst.
  destruct Hin as [->|Hin].
  - cbn [fst snd] in *. rewrite initial_bindings_other by exact Hx.
    apply lookup_insert_eq.
  - apply IH; assumption.
Qed.

(** X6: with distinct table names, the namespace handed to the code binds
    every table under its own name, [pd] and [np] to the two libraries
    unless a table carries that name, and nothing else: none of the four
    artifact names is bound before the code runs unless a table is so
    named. *)
Theorem namespace_bindings (d : list (string * DataFrame)) :
  List.NoDup (map fst d) ->
  (forall name df, In (name, df) d -> initial_locals d !! name = Some (VDataFrame df))
  /\ (~ In "pd" (map fst d) -> initial_locals d !! "pd" = Some (VModule "pandas"))
  /\ (~ In "np" (map fst d) -> initial_locals d !! "np" = Some (VModule "numpy"))
  /\ (forall name, ~ In name (map fst d) -> name <> "pd" -> name <> "np" ->
      initial_locals d !! name = None).
Proof.
  intros Hnd. unfold initial_locals. cbv zeta. split; [|split; [|split]].
  - intros name df Hin. apply initial_bindings_table; assumption.
  - intros Hpd. rewrite initial_bindings_other by exact Hpd. reflexivity.
  - intros Hnp. rewrite initial_bindings_other by exact Hnp. reflexivity.
  - intros name Hname Hpd Hnp. rewrite initial_bindings_other by exact Hname.
    rewrite lookup_insert_ne by congruence. rewrite lookup_insert_ne by congruence.
    apply lookup_empty.
Qed.

Lemma namespace_bindings_witness :
  initial_locals [("df_customers", customers_table); ("df_sales", two_column_table)]
    !! "df_sales" = Some (VDataFrame two_column_table)
  /\ initial_locals [("df_customers", customers_table); ("df_sales", two_column_table)]
       !! "result" = None.
Proof.
  assert (Hnd : List.NoDup (map fst [("df_customers", customers_table);
                                     ("df_sales", two_column_table)])).
  { repeat constructor; cbn; intuition discriminate. }
  split.
  - apply (proj1 (namespace_bindings _ Hnd)). right. left. reflexivity.
  - apply (proj2 (proj2 (proj2 (namespace_bindings _ Hnd)))).
    + cbn. intuition discriminate.
    + discriminate.
    + discriminate.
Defined.

Section ExecutorExits.

Variable exec_ :
  string -> gmap string PyVal -> gmap string PyVal -> World ->
  PyOutcome (gmap string PyVal) * World.

(** X7: however the executor ends, with a result structure, with the
    exception of the executed code, of the buffer read or of the validator,
    of any class, [sys.stdout] is the stream it was before the call. *)
Theorem stdout_restored_on_every_exit
    (code : string) (d : list (string * DataFrame)) (w : World) :
  sys_stdout (snd (execute_generated_code exec_ code d w)) = sys_stdout w.
Proof.
  unfold execute_generated_code, new_StringIO. cbv beta iota zeta.
  destruct (exec_ code exec_globals (initial_locals d) _) as [[local_vars|e] w1].
  - destruct (getvalue _ _) as [output_text|e].
    + destruct (validate_execution_results_obj _ _ _ _) as [[is_valid issues]|e].
      * reflexivity.
      * destruct (is_Exception e); reflexivity.
    + destruct (is_Exception e); reflexivity.
  - destruct (is_Exception e); reflexivity.
Qed.


End ExecutorExits.


(** ** What the relevance selector returns *)

Lemma dict_set_keys {V : Type} (k : string) (v : V) (d : list (string * V)) (x : string) :
  In x (map fst (dict_set k v d)) <-> x = k \/ In x (map fst d).
Proof.
  induction d as [|[k' v'] d IH]; cbn [dict_set map fst In].
  - intuition.
  - destruct (String.eqb k k') eqn:E; cbn [map fst In].
    + apply String.eqb_eq in E. subst. intuition.
    + rewrite IH. intuition.
Qed.

Lemma dict_set_NoDup {V : Type} (k : string) (v : V) (d : list (string * V)) :
  List.NoDup (map fst d) -> List.NoDup (map fst (dict_set k v d)).
Proof.
  induction d as [|[k' v'] d IH]; cbn [dict_set map fst]; intros Hnd.
  - repeat constructor. intros [].
  - inversion Hnd as [|? ? Hx Hd]; subst.
    destruct (String.eqb k k') eqn:E; cbn [map fst].
    + apply String.eqb_eq in E. subst. constructor; assumption.
    + constructor; [|apply IH, Hd].
      rewrite dict_set_keys. intros [->|Hin]; [|contradiction].
      rewrite String.eqb_refl in E. discriminate.
Qed.

(** The score dictionary has one entry per table name. *)
Lemma relevance_scores_keys q d :
  List.NoDup (map fst (relevance_scores q d))
  /\ forall x, In x (map fst (relevance_scores q d)) <-> In x (map fst d).
Proof.
  unfold relevance_scores. cbv zeta.
  set (f := fun scores item => dict_set _ _ scores).
  assert (H : forall acc : list (string * Z),
             List.NoDup (map fst acc) ->
             List.NoDup (map fst (fold_left f d acc))
             /\ forall x, In x (map fst (fold_left f d acc))
                          <-> In x (map fst acc) \/ In x (map fst d)).
  { induction d as [|item d IH]; intros acc Hacc; cbn [fold_left map In].
    - split; [exact Hacc | intuition].
    - destruct (IH (f acc item)) as [Hnd Hkeys]; [apply dict_set_NoDup, Hacc|].
      split; [exact Hnd|]. intros x. rewrite Hkeys. unfold f at 1.
      rewrite dict_set_keys. intuition. }
  destruct (H []) as [Hnd Hkeys]; [constructor|].
  split; [exact Hnd|]. intros x. rewrite Hkeys. cbn [map In]. intuition.
Qed.

Lemma NoDup_map_filter {A B : Type} (f : A -> B) (p : A -> bool) (l : list A) :
  List.NoDup (map f l) -> List.NoDup (map f (List.filter p l)).
Proof.
  induction l as [|x l IH]; cbn [map List.filter]; intros Hnd; [constructor|].
  inversion Hnd as [|? ? Hx Hl]; subst.
  destruct (p x); cbn [map]; [|apply IH, Hl].
  constructor; [|apply IH, Hl].
  intros Hin. apply Hx. apply in_map_iff in Hin. destruct Hin as (y & Hy & Hin).
  apply in_map_iff. exists y. split; [exact Hy|]. apply List.filter_In in Hin. tauto.
Qed.

Lemma analyze_cases q d :
  (analyze_query_relevance q d = map fst d
   /\ List.filter positive (sorted_desc (relevance_scores q d)) = [])
  \/ (analyze_query_relevance q d
      = map fst (List.filter positive (sorted_desc (relevance_scores q d)))
      /\ List.filter positive (sorted_desc (relevance_scores q d)) <> []).
Proof.
  unfold analyze_query_relevance. cbv zeta. fold positive.
  destruct (List.filter positive (sorted_desc (relevance_scores q d))) as [|x l].
  - left. split; reflexivity.
  - right. split; [reflexivity | discriminate].
Qed.

(** X9: the selector fails open and stays within the table set.  For a
    table set that is not empty the ranking is not empty; every name it
    returns is the name of a table; and with distinct table names no name is
    returned twice. *)
Theorem relevance_fail_open (q : string) (d : list (string * DataFrame)) :
  (d <> [] -> analyze_query_relevance q d <> [])
  /\ (forall name, In name (analyze_query_relevance q d) -> In name (map fst d))
  /\ (List.NoDup (map fst d) -> List.NoDup (analyze_query_relevance q d)).
Proof.
  destruct (relevance_scores_keys q d) as [Hnd Hkeys].
  pose proof (sorted_desc_perm (relevance_scores q d)) as Hperm.
  destruct (analyze_cases q d) as [[-> Hnil]|[-> Hne]].
  - split; [|split].
    + intros Hd Hmap. apply Hd. destruct d; [reflexivity | discriminate].
    + auto.
    + auto.
  - split; [|split].
    + intros _ Hmap. apply Hne.
      destruct (List.filter positive (sorted_desc (relevance_scores q d)));
        [reflexivity | discriminate].
    + intros name Hin. apply Hkeys.
      apply in_map_iff in Hin. destruct Hin as (item & <- & Hin).
      apply List.filter_In in Hin. destruct Hin as [Hin _].
      apply in_map. apply (Permutation_in _ Hperm), Hin.
    + intros _. apply NoDup_map_filter.
      apply (Permutation_NoDup (l := map fst (relevance_scores q d))); [|exact Hnd].
      apply Permutation_map, Permutation_sym, Hperm.
Qed.

Lemma relevance_fail_open_witness :
  analyze_query_relevance "hello"
    [("df_customers", customers_table); ("df_sales", two_column_table)] <> []
  /\ List.NoDup (analyze_query_relevance "total sales by region"
                   [("df_customers", customers_table); ("df_sales", two_column_table)]).
Proof.
  split.
  - apply (proj1 (relevance_fail_open "hello" _)). discriminate.
  - apply (proj2 (proj2 (relevance_fail_open "total sales by region" _))).
    repeat constructor; cbn; intuition discriminate.
Defined.

Lemma fold_left_grows_at {A : Type} (f : Z -> A -> Z) (l : list A) (z : Z) (a : A) (k : Z) :
  (forall s b, s <= f s b)%Z -> (forall s, s + k <= f s a)%Z -> In a l ->
  (z + k <= fold_left f l z)%Z.
Proof.
  intros Hf Ha. revert z. induction l as [|b l IH]; intros z Hin; [destruct Hin|].
  cbn [fold_left]. destruct Hin as [->|Hin].
  - pose proof (fold_left_grows f l (f z a) Hf). specialize (Ha z). lia.
  - specialize (IH (f z b) Hin). specialize (Hf z b). lia.
Qed.

Lemma column_step_match ql qw score col :
  Py.contains (Py.lower (col_name col)) ql = true ->
  (score + 50 <= column_step ql qw score col)%Z.
Proof.
  intros Hc. unfold column_step. cbv zeta. rewrite Hc.
  etransitivity; [|apply fold_left_grows].
  - lia.
  - intros s a. repeat case_if; lia.
Qed.

Lemma table_score_match ql qw name df :
  Py.contains (Py.lower (Py.replace "_" " " (Py.replace "df_" "" name))) ql = true
  \/ (exists col, In col (df_columns df) /\ Py.contains (Py.lower (col_name col)) ql = true) ->
  (0 < table_score ql qw name df)%Z.
Proof.
  intros H. unfold table_score. cbv zeta.
  assert (Hfold : (50 <= fold_left (column_step ql qw) (df_columns df)
                     (if Py.contains (Py.lower (Py.replace "_" " " (Py.replace "df_" "" name))) ql
                      then 0 + 100 else 0))%Z).
  { destruct H as [Hname|(col & Hin & Hcol)].
    - rewrite Hname. etransitivity; [|apply fold_left_grows, column_step_grows]. lia.
    - etransitivity; [|apply (fold_left_grows_at _ _ _ col 50)];
        [| apply column_step_grows | intros s; apply column_step_match, Hcol | exact Hin].
      case_if; lia. }
  case_if; lia.
Qed.

(** X10: a table that the query names is always selected, and so is a table
    with a column whose name occurs in the query (both compared in lower
    case, the table name without its [df_] prefix and with spaces for
    underscores), whatever the other tables score. *)
Theorem mentioned_table_selected
    (q : string) (d : list (string * DataFrame)) (name : string) (df : DataFrame) :
  List.NoDup (map fst d) ->
  In (name, df) d ->
  Py.contains (Py.lower (Py.replace "_" " " (Py.replace "df_" "" name))) (Py.lower q) = true
  \/ (exists col, In col (df_columns df)
                  /\ Py.contains (Py.lower (col_name col)) (Py.lower q) = true) ->
  In name (analyze_query_relevance q d).
Proof.
  intros Hnd Hin Hmatch.
  pose proof (table_score_match (Py.lower q) (list_to_set (Py.split (Py.lower q))) name df Hmatch)
    as Hpos.
  pose proof (sorted_desc_perm (relevance_scores q d)) as Hperm.
  assert (Hranked : In (name, table_score (Py.lower q) (list_to_set (Py.split (Py.lower q)))
                                name df)
                       (List.filter positive (sorted_desc (relevance_scores q d)))).
  { apply List.filter_In. split.
    - apply (Permutation_in _ (Permutation_sym Hperm)).
      rewrite (relevance_scores_distinct q d Hnd).
      apply in_map_iff. exists (name, df). split; [reflexivity | exact Hin].
    - unfold positive. cbn [snd]. apply Z.ltb_lt, Hpos. }
  destruct (analyze_cases q d) as [[_ Hnil]|[-> _]].
  - rewrite Hnil in Hranked. destruct Hranked.
  - apply in_map_iff. eexists. split; [|exact Hranked]. reflexivity.
Qed.

Lemma mentioned_table_selected_witness :
  In "df_sales" (analyze_query_relevance "Show SALES per customer_id"
                   [("df_customers", customers_table); ("df_sales", two_column_table)])
  /\ In "df_customers" (analyze_query_relevance "Show SALES per customer_id"
                          [("df_customers", customers_table); ("df_sales", two_column_table)]).
Proof.
  assert (Hnd : List.NoDup (map fst [("df_customers", customers_table);
                                     ("df_sales", two_column_table)])).
  { repeat constructor; cbn; intuition discriminate. }
  split.
  - apply (mentioned_table_selected _ _ "df_sales" two_column_table Hnd).
    + right. left. reflexivity.
    + left. reflexivity.
  - apply (mentioned_table_selected _ _ "df_customers" customers_table Hnd).
    + left. reflexivity.
    + right. eexists. split; [left; reflexivity | reflexivity].
Defined.

Lemma firstn_incl {A : Type} (n : nat) (l : list A) (x : A) :
  In x (firstn n l) -> In x l.
Proof.
  intros Hin. rewrite <- (firstn_skipn n l). apply in_or_app. left. exact Hin.
Qed.

Lemma mem_In (name : string) (l : list string) : mem name l = true <-> In name l.
Proof.
  unfold mem. rewrite existsb_exists. split.
  - intros (x & Hin & Heq). apply String.eqb_eq in Heq. subst. exact Hin.
  - intros Hin. exists name. split; [exact Hin | apply String.eqb_refl].
Qed.

(** X11: the prompt covers the table set once.  The names described in full
    are the first three of the ranking, the guard on them never drops one,
    and there is at least one when tables are loaded; every table is either
    described in full or listed among the others, never both. *)
Theorem prompt_covers_every_table (q : string) (d : list (string * DataFrame)) :
  let relevant := analyze_query_relevance q d in
  primary_dataframes relevant d = firstn 3 relevant
  /\ length (primary_dataframes relevant d) <= 3
  /\ (d <> [] -> primary_dataframes relevant d <> [])
  /\ (forall name, In name (map fst d) ->
        (In name (primary_dataframes relevant d) \/ In name (other_dfs relevant d))
        /\ ~ (In name (primary_dataframes relevant d) /\ In name (other_dfs relevant d))).
Proof.
  cbv zeta.
  assert (Hsub : forall name, In name (analyze_query_relevance q d) -> In name (map fst d)).
  { destruct (relevance_scores_keys q d) as [_ Hkeys].
    pose proof (sorted_desc_perm (relevance_scores q d)) as Hperm.
    destruct (analyze_cases q d) as [[-> _]|[-> _]]; [auto|].
    intros name Hin. apply Hkeys.
    apply in_map_iff in Hin. destruct Hin as (item & <- & Hin).
    apply List.filter_In in Hin. destruct Hin as [Hin _].
    apply in_map. apply (Permutation_in _ Hperm), Hin. }
  assert (Hne : d <> [] -> analyze_query_relevance q d <> []).
  { destruct (analyze_cases q d) as [[-> _]|[-> Hne]].
    - intros Hd Hmap. apply Hd. destruct d; [reflexivity | discriminate].
    - intros _ Hmap. apply Hne.
      destruct (List.filter positive (sorted_desc (relevance_scores q d)));
        [reflexivity | discriminate]. }
  assert (Hprim : primary_dataframes (analyze_query_relevance q d) d
                  = firstn 3 (analyze_query_relevance q d)).
  { unfold primary_dataframes. apply forallb_filter_id, forallb_forall.
    intros name Hin. apply mem_In, Hsub. eapply firstn_incl, Hin. }
  rewrite Hprim. split; [reflexivity|]. split; [apply firstn_le_length|]. split.
  - intros Hd Hnil. apply (Hne Hd).
    destruct (analyze_query_relevance q d); [reflexivity | discriminate].
  - intros name Hin. unfold other_dfs.
    destruct (mem name (firstn 3 (analyze_query_relevance q d))) eqn:E.
    + apply mem_In in E. split; [left; exact E|].
      intros [_ Hother]. apply List.filter_In in Hother. destruct Hother as [_ Hneg].
      apply mem_In in E. rewrite E in Hneg. discriminate.
    + split.
      * right. apply List.filter_In. split; [exact Hin | rewrite E; reflexivity].
      * intros [Hprimary _]. apply mem_In in Hprimary. congruence.
Qed.

(** ** LLM handler *)

Example code_fence_search_ex :
  code_fence_search ("a ```js" ++ newline ++ "x" ++ newline ++ "```" ++ newline
                     ++ "```python" ++ newline ++ "y" ++ newline ++ "```")
  = Some ("```python" ++ newline ++ "y")
  /\ code_fence_search ("```" ++ newline ++ "```") = None
  /\ code_fence_search ("```" ++ newline ++ newline ++ "```") = Some "".
Proof. repeat split; reflexivity. Qed.

Lemma prefix_app_l (a b s : string) :
  String.prefix (a ++ b) s = true -> String.prefix a s = true.
Proof.
  revert s. induction a as [|c a IH]; intros s H; [destruct s; reflexivity|].
  destruct s as [|d s]; [discriminate|]. simpl in *.
  destruct (ascii_dec c d); [apply IH, H | discriminate].
Qed.

Lemma prefix_app_r (sub x y : string) :
  String.prefix sub x = true -> String.prefix sub (x ++ y) = true.
Proof.
  revert x. induction sub as [|c sub IH]; intros x H; [destruct (x ++ y); reflexivity|].
  destruct x as [|d x]; [discriminate|]. simpl in *.
  destruct (ascii_dec c d); [apply IH, H | discriminate].
Qed.

Lemma prefix_self_app (a b : string) : String.prefix a (a ++ b) = true.
Proof.
  induction a as [|c a IH]; [destruct b; reflexivity|]. simpl.
  destruct (ascii_dec c c); [exact IH | congruence].
Qed.

Lemma contains_cons (sub : string) (c : ascii) (s : string) :
  Py.contains sub (String c s) = String.prefix sub (String c s) || Py.contains sub s.
Proof. reflexivity. Qed.

Lemma contains_prefix (sub s : string) :
  String.prefix sub s = true -> Py.contains sub s = true.
Proof. intros H. destruct s; cbn [Py.contains]; rewrite H; reflexivity. Qed.

Lemma code_fence_at_fence (s g : string) :
  code_fence_at s = Some g -> String.prefix "```" s = true.
Proof.
  unfold code_fence_at.
  destruct (String.prefix ("```python" ++ newline) s) eqn:E1.
  - intros _. apply (prefix_app_l "```" ("python" ++ newline)). exact E1.
  - destruct (String.prefix ("```" ++ newline) s) eqn:E2; [|discriminate].
    intros _. apply (prefix_app_l "```" newline). exact E2.
Qed.

Lemma no_fence_no_match (s : string) :
  Py.contains "```" s = false -> code_fence_search s = None.
Proof.
  induction s as [|c s IH]; intros H.
  - reflexivity.
  - rewrite contains_cons in H. apply orb_false_iff in H. destruct H as [Hp Hc].
    cbn [code_fence_search]. destruct (code_fence_at (String c s)) eqn:E.
    + apply code_fence_at_fence in E. congruence.
    + apply IH, Hc.
Qed.

Section LLMFacts.

Variable openai_create : string -> string -> string -> string -> PyOutcome string.
Variable gemini_generate : string -> string -> string -> PyOutcome string.

(** X12: every provider the sidebar offers reaches its API under the name
    the sidebar stores for it, with the provider's default model when none
    is given; a provider whose lower-case name is neither of the two is
    refused with a [ValueError] that names it, and no API is called. *)
Theorem provider_dispatch (api_key prompt : string) (model : option string) :
  (forall provider, In provider provider_options ->
     generate_code_with_llm openai_create gemini_generate api_key prompt
       (sidebar_provider provider) model
     = if String.eqb provider "OpenAI"
       then generate_code_with_openai openai_create api_key prompt
              (or_default model "gpt-4-turbo-preview")
       else generate_code_with_gemini gemini_generate api_key prompt
              (or_default model "gemini-1.5-pro"))
  /\ (forall provider,
        Py.lower provider <> "openai" -> Py.lower provider <> "gemini" ->
        generate_code_with_llm openai_create gemini_generate api_key prompt provider model
        = Raised {| exc_class := ValueError;
                    exc_str := "Unsupported provider: " ++ provider
                               ++ ". Choose 'openai' or 'gemini'" |}).
Proof.
  split.
  - intros provider [<-|[<-|[]]]; reflexivity.
  - intros provider H1 H2. unfold generate_code_with_llm.
    apply String.eqb_neq in H1, H2. rewrite H1, H2. reflexivity.
Qed.

(** X13: a response without three backticks in a row is taken as the code,
    unchanged, by both providers' functions. *)
Theorem unfenced_response_verbatim (api_key prompt model response_text : string) :
  Py.contains "```" response_text = false ->
  (openai_create api_key model system_message prompt = Returned response_text ->
   generate_code_with_openai openai_create api_key prompt model = Returned response_text)
  /\ (gemini_generate api_key model (gemini_preamble ++ prompt) = Returned response_text ->
      generate_code_with_gemini gemini_generate api_key prompt model = Returned response_text).
Proof.
  intros Hno. apply no_fence_no_match in Hno.
  split; intros Hapi.
  - unfold generate_code_with_openai, extract_code. rewrite Hapi, Hno. reflexivity.
  - unfold generate_code_with_gemini, extract_code. cbv zeta. rewrite Hapi, Hno. reflexivity.
Qed.

End LLMFacts.

Lemma provider_dispatch_witness :
  generate_code_with_llm sample_openai sample_gemini "key" "prompt"
    (sidebar_provider "Google Gemini") None
  = generate_code_with_gemini sample_gemini "key" "prompt" "gemini-1.5-pro"
  /\ generate_code_with_llm sample_openai sample_gemini "key" "prompt" "Claude" None
     = Raised {| exc_class := ValueError;
                 exc_str := "Unsupported provider: Claude. Choose 'openai' or 'gemini'" |}.
Proof.
  split.
  - apply (proj1 (provider_dispatch sample_openai sample_gemini "key" "prompt" None)
             "Google Gemini"). right. left. reflexivity.
  - apply (proj2 (provider_dispatch sample_openai sample_gemini "key" "prompt" None) "Claude");
      discriminate.
Defined.

Lemma unfenced_response_verbatim_witness :
  generate_code_with_gemini sample_gemini "key" "prompt" "gemini-1.5-pro"
  = Returned "result = df_sales.head()".
Proof.
  apply (proj2 (unfenced_response_verbatim sample_openai sample_gemini "key" "prompt"
                  "gemini-1.5-pro" "result = df_sales.head()" eq_refl)).
  reflexivity.
Defined.

Lemma prefix_empty (s : string) : String.prefix "" s = true.
Proof. destruct s; reflexivity. Qed.

Lemma prefix_iff (a s : string) :
  String.prefix a s = true <-> exists t, s = a ++ t.
Proof.
  split.
  - revert s. induction a as [|c a IH]; intros s H; [exists s; reflexivity|].
    destruct s as [|d s]; [discriminate|]. simpl in H.
    destruct (ascii_dec c d) as [->|]; [|discriminate].
    destruct (IH s H) as [t ->]. exists t. reflexivity.
  - intros [t ->]. apply prefix_self_app.
Qed.

Lemma newline_char : newline = String "010"%char "".
Proof. reflexivity. Qed.

(** The closing fence is found where it stands: an occurrence cannot begin
    inside the text before it and end inside the fence. *)
Lemma closing_fence_no_overlap (x rest : string) :
  x <> "" ->
  String.prefix (newline ++ "```") (x ++ newline ++ "```" ++ rest) = true ->
  String.prefix (newline ++ "```") x = true.
Proof.
  rewrite newline_char. intros Hx H. apply prefix_iff in H. destruct H as [t H].
  apply prefix_iff.
  destruct x as [|c1 x]; [congruence|].
  destruct x as [|c2 x]; [simpl in H; injection H; intros; subst; discriminate|].
  destruct x as [|c3 x]; [simpl in H; injection H; intros; subst; discriminate|].
  destruct x as [|c4 x]; [simpl in H; injection H; intros; subst; discriminate|].
  simpl in H. injection H as -> -> -> -> _. exists x. reflexivity.
Qed.

Lemma before_first_found (code rest : string) :
  Py.contains (newline ++ "```") code = false ->
  before_first (newline ++ "```") (code ++ newline ++ "```" ++ rest) = Some code.
Proof.
  induction code as [|c code IH]; intros H.
  - change ("" ++ newline ++ "```" ++ rest) with ((newline ++ "```") ++ rest).
    destruct ((newline ++ "```") ++ rest) eqn:E; [discriminate|].
    cbn [before_first]. rewrite <- E, prefix_self_app. reflexivity.
  - rewrite contains_cons in H. apply orb_false_iff in H. destruct H as [Hp Hc].
    change (String c code ++ newline ++ "```" ++ rest)
      with (String c (code ++ newline ++ "```" ++ rest)).
    cbn [before_first].
    destruct (String.prefix (newline ++ "```") (String c (code ++ newline ++ "```" ++ rest)))
      eqn:E.
    + apply (closing_fence_no_overlap (String c code) rest) in E; [congruence | discriminate].
    + rewrite (IH Hc). reflexivity.
Qed.

Lemma code_fence_at_shape (s g : string) :
  code_fence_at s = Some g ->
  exists c t, s = "```" ++ String c t /\ c <> "`"%char.
Proof.
  unfold code_fence_at. rewrite newline_char.
  destruct (String.prefix ("```python" ++ String "010"%char "") s) eqn:E1.
  - intros _. apply prefix_iff in E1. destruct E1 as [t ->].
    eexists. eexists. split; [reflexivity | discriminate].
  - destruct (String.prefix ("```" ++ String "010"%char "") s) eqn:E2; [|discriminate].
    intros _. apply prefix_iff in E2. destruct E2 as [t ->].
    eexists. eexists. split; [reflexivity | discriminate].
Qed.

(** No match begins in text that has no three backticks in a row, even when
    that text ends in backticks and a fence follows. *)
Lemma no_match_before_fence (x rest : string) :
  x <> "" ->
  Py.contains "```" x = false ->
  code_fence_at (x ++ "```" ++ rest) = None.
Proof.
  intros Hx Hc. destruct (code_fence_at (x ++ "```" ++ rest)) as [g|] eqn:E; [|reflexivity].
  exfalso. apply code_fence_at_shape in E. destruct E as (c & t & H & Hne).
  destruct x as [|c1 x]; [congruence|].
  destruct x as [|c2 x]; [simpl in H; injection H; intros; subst; congruence|].
  destruct x as [|c3 x]; [simpl in H; injection H; intros; subst; congruence|].
  simpl in H. injection H as -> -> -> _.
  rewrite contains_cons in Hc. apply orb_false_iff in Hc. destruct Hc as [Hp _].
  rewrite (proj2 (prefix_iff "```" _)) in Hp; [discriminate | exists x; reflexivity].
Qed.

Lemma search_skips_prose (pre rest : string) :
  Py.contains "```" pre = false ->
  code_fence_search (pre ++ "```" ++ rest) = code_fence_search ("```" ++ rest).
Proof.
  induction pre as [|c pre IH]; intros H; [reflexivity|].
  pose proof (no_match_before_fence (String c pre) rest) as Hnone.
  rewrite contains_cons in H. apply orb_false_iff in H. destruct H as [Hp Hc].
  change (String c pre ++ "```" ++ rest) with (String c (pre ++ "```" ++ rest)) in *.
  cbn [code_fence_search]. rewrite Hnone.
  - apply IH, Hc.
  - discriminate.
  - rewrite contains_cons, Hp, Hc. reflexivity.
Qed.

(** X14: a fenced block is unwrapped.  When the text before the block has no
    three backticks in a row and the code has no line that starts with three
    backticks, the code between the fences is returned exactly, with or
    without the [python] tag and whatever follows the block. *)
Theorem fenced_code_extracted (pre code post : string) :
  Py.contains "```" pre = false ->
  Py.contains (newline ++ "```") code = false ->
  extract_code (pre ++ "```python" ++ newline ++ code ++ newline ++ "```" ++ post) = code
  /\ extract_code (pre ++ "```" ++ newline ++ code ++ newline ++ "```" ++ post) = code.
Proof.
  intros Hpre Hcode. unfold extract_code. split.
  - change (pre ++ "```python" ++ newline ++ code ++ newline ++ "```" ++ post)
      with (pre ++ "```" ++ ("python" ++ newline ++ code ++ newline ++ "```" ++ post)).
    rewrite (search_skips_prose pre _ Hpre).
    change ("```" ++ "python" ++ newline ++ code ++ newline ++ "```" ++ post)
      with (String "`" (String "`" (String "`" (String "p" (String "y" (String "t"
             (String "h" (String "o" (String "n" (String "010"
                (code ++ newline ++ "```" ++ post))))))))))).
    cbn [code_fence_search]. unfold code_fence_at. rewrite newline_char.
    simpl String.prefix. simpl skip. rewrite prefix_empty.
    rewrite <- newline_char, (before_first_found code post Hcode). reflexivity.
  - change (pre ++ "```" ++ newline ++ code ++ newline ++ "```" ++ post)
      with (pre ++ "```" ++ (newline ++ code ++ newline ++ "```" ++ post)).
    rewrite (search_skips_prose pre _ Hpre).
    change ("```" ++ newline ++ code ++ newline ++ "```" ++ post)
      with (String "`" (String "`" (String "`" (String "010"
             (code ++ newline ++ "```" ++ post))))).
    cbn [code_fence_search]. unfold code_fence_at. rewrite newline_char.
    simpl String.prefix. simpl skip. rewrite prefix_empty.
    rewrite <- newline_char, (before_first_found code post Hcode). reflexivity.
Qed.

Lemma fenced_code_extracted_witness :
  generate_code_with_openai sample_openai "key" "prompt" "gpt-4"
  = Returned "result = df_sales.head()".
Proof.
  unfold generate_code_with_openai, sample_openai.
  change ("Here is the code:" ++ newline ++ "```python" ++ newline
          ++ "result = df_sales.head()" ++ newline ++ "```" ++ newline ++ "Done.")
    with (("Here is the code:" ++ newline) ++ "```python" ++ newline
          ++ "result = df_sales.head()" ++ newline ++ "```" ++ (newline ++ "Done.")).
  rewrite (proj1 (fenced_code_extracted ("Here is the code:" ++ newline)
                    "result = df_sales.head()" (newline ++ "Done.") eq_refl eq_refl)).
  reflexivity.
Defined.

(** ** Table names and loading *)

Lemma contains_char_cons (c d : ascii) (s : string) :
  Py.contains (String c "") (String d s)
  = (if ascii_dec c d then true else false) || Py.contains (String c "") s.
Proof.
  rewrite contains_cons. f_equal. simpl.
  destruct (ascii_dec c d); [apply prefix_empty | reflexivity].
Qed.

Lemma contains_char_app (c : ascii) (a b : string) :
  Py.contains (String c "") (a ++ b)
  = Py.contains (String c "") a || Py.contains (String c "") b.
Proof.
  induction a as [|d a IH].
  - reflexivity.
  - change (String d a ++ b) with (String d (a ++ b)).
    rewrite !contains_char_cons, IH. apply orb_assoc.
Qed.

Lemma replace_from_char (c : ascii) (new s : string) :
  Py.replace_from (String c "") new s 0
  = match s with
    | EmptyString => EmptyString
    | String d r =>
        if ascii_dec c d then new ++ Py.replace_from (String c "") new r 0
        else String d (Py.replace_from (String c "") new r 0)
    end.
Proof.
  destruct s as [|d r]; [reflexivity|]. simpl.
  destruct (ascii_dec c d); [rewrite prefix_empty|]; reflexivity.
Qed.

(** Replacing a character removes it, when the replacement does not bring
    it back. *)
Lemma replace_char_removes (c : ascii) (new s : string) :
  Py.contains (String c "") new = false ->
  Py.contains (String c "") (Py.replace (String c "") new s) = false.
Proof.
  intros Hnew. unfold Py.replace.
  induction s as [|d r IH]; [reflexivity|].
  rewrite replace_from_char. destruct (ascii_dec c d) as [->|Hne].
  - rewrite contains_char_app, Hnew, IH. reflexivity.
  - rewrite contains_char_cons, IH. destruct (ascii_dec c d); [contradiction | reflexivity].
Qed.

(** Replacing one character does not introduce another one. *)
Lemma replace_char_keeps_absent (c x : ascii) (new s : string) :
  Py.contains (String x "") new = false ->
  Py.contains (String x "") s = false ->
  Py.contains (String x "") (Py.replace (String c "") new s) = false.
Proof.
  intros Hnew. unfold Py.replace.
  induction s as [|d r IH]; intros Hs; [reflexivity|].
  rewrite contains_char_cons in Hs. apply orb_false_iff in Hs. destruct Hs as [Hd Hr].
  rewrite replace_from_char. destruct (ascii_dec c d).
  - rewrite contains_char_app, Hnew, (IH Hr). reflexivity.
  - rewrite contains_char_cons, Hd, (IH Hr). reflexivity.
Qed.

(** X15: the table name made from a file name starts with [df_] and has no
    hyphen and no space, whatever the file is called. *)
Theorem df_name_shape (name : string) :
  String.prefix "df_" (df_name_of name) = true
  /\ Py.contains "-" (df_name_of name) = false
  /\ Py.contains " " (df_name_of name) = false.
Proof.
  unfold df_name_of. cbv zeta. split; [apply prefix_self_app|]. split.
  - rewrite (contains_char_app "-" "df_"). cbn [orb].
    change (Py.contains "-" "df_") with false. cbn [orb].
    apply replace_char_keeps_absent; [reflexivity|].
    apply replace_char_removes. reflexivity.
  - rewrite (contains_char_app " " "df_").
    change (Py.contains " " "df_") with false. cbn [orb].
    apply replace_char_removes. reflexivity.
Qed.

Section SidebarFacts.

Variable read_csv : UploadedFile -> PyOutcome DataFrame.

Lemma load_files_ok (files : list UploadedFile) (acc : list (string * DataFrame)) :
  Forall (fun file => exists df, read_csv file = Returned df) files ->
  List.NoDup (map fst acc) ->
  exists tables,
    load_files read_csv files acc = (tables, None)
    /\ List.NoDup (map fst tables)
    /\ length tables <= length acc + length files
    /\ (forall name, In name (map fst tables)
                     <-> In name (map fst acc)
                         \/ In name (map (fun file => df_name_of (file_name file)) files)).
Proof.
  intros Hok. revert acc. induction Hok as [|file files [df Hdf] _ IH]; intros acc Hacc.
  - exists acc. cbn [load_files length map In].
    split; [reflexivity|]. split; [exact Hacc|]. split; [lia | intros name; tauto].
  - cbn [load_files]. cbv zeta. rewrite Hdf.
    destruct (IH (dict_set (df_name_of (file_name file)) df acc)) as (tables & -> & Hnd & Hlen & Hkeys);
      [apply dict_set_NoDup, Hacc|].
    exists tables. split; [reflexivity|]. split; [exact Hnd|]. split.
    + pose proof (dict_set_length (df_name_of (file_name file)) df acc). cbn [length]. lia.
    + intros name. rewrite Hkeys, dict_set_keys. cbn [map In]. intuition.
Qed.

Lemma load_files_distinct (files : list UploadedFile) (acc : list (string * DataFrame)) :
  Forall (fun file => exists df, read_csv file = Returned df) files ->
  List.NoDup (map fst acc ++ map (fun file => df_name_of (file_name file)) files) ->
  length (fst (load_files read_csv files acc)) = length acc + length files.
Proof.
  intros Hok. revert acc. induction Hok as [|file files [df Hdf] _ IH]; intros acc Hnd.
  - cbn. lia.
  - cbn [load_files]. cbv zeta. rewrite Hdf. cbn [map] in Hnd.
    rewrite dict_set_fresh.
    + rewrite IH.
      * rewrite length_app. cbn [length]. lia.
      * rewrite map_app. cbn [map fst]. rewrite <- app_assoc. exact Hnd.
    + apply NoDup_remove_2 in Hnd. intros Hin. apply Hnd, in_or_app. left. exact Hin.
Qed.

(** X16: a load in which every file is read sets the flag, counts the
    files, and replaces the tables by those of the files: one table per
    derived name, so never more tables than files, and exactly as many when
    the derived names differ.  The other session values are untouched. *)
Theorem load_success (uploaded_files : list UploadedFile) (st : SessionState) :
  uploaded_files <> [] ->
  Forall (fun file => exists df, read_csv file = Returned df) uploaded_files ->
  exists tables,
    load_all_data read_csv uploaded_files st
    = ({| ss_dataframes_loaded := Some true;
          ss_dataframes := Some tables;
          ss_num_files := Some (length uploaded_files);
          ss_chat_history := ss_chat_history st;
          ss_llm_provider := ss_llm_provider st;
          ss_llm_model := ss_llm_model st |},
       Returned (LoadSuccess (length uploaded_files)))
    /\ List.NoDup (map fst tables)
    /\ length tables <= length uploaded_files
    /\ (forall name, In name (map fst tables)
                     <-> In name (map (fun file => df_name_of (file_name file)) uploaded_files))
    /\ (List.NoDup (map (fun file => df_name_of (file_name file)) uploaded_files) ->
        length tables = length uploaded_files).
Proof.
  intros Hne Hok.
  destruct (load_files_ok uploaded_files [] Hok) as (tables & Hload & Hnd & Hlen & Hkeys);
    [constructor|].
  exists tables. unfold load_all_data.
  destruct uploaded_files as [|file files]; [congruence|]. cbn [Py.truthy_list].
  rewrite Hload. split; [reflexivity|]. split; [exact Hnd|]. split; [exact Hlen|]. split.
  - intros name. rewrite Hkeys. cbn [map In]. intuition.
  - intros Hdistinct.
    pose proof (load_files_distinct (file :: files) [] Hok Hdistinct) as H.
    rewrite Hload in H. exact H.
Qed.

Lemma load_files_app (fs1 fs2 : list UploadedFile) (acc : list (string * DataFrame)) :
  Forall (fun file => exists df, read_csv file = Returned df) fs1 ->
  load_files read_csv (fs1 ++ fs2) acc
  = load_files read_csv fs2 (fst (load_files read_csv fs1 acc)).
Proof.
  intros Hok. revert acc. induction Hok as [|file files [df Hdf] _ IH]; intros acc.
  - reflexivity.
  - cbn [app load_files]. cbv zeta. rewrite Hdf. apply IH.
Qed.

(** X17: a load that fails on a file keeps the flag and the file count as
    they were, but not the tables: the session holds the tables of the files
    read before the failure and none of the earlier ones; the error is
    reported. *)
Theorem load_failure (fs1 fs2 : list UploadedFile) (file : UploadedFile)
    (e : PyExc) (st : SessionState) :
  Forall (fun file => exists df, read_csv file = Returned df) fs1 ->
  read_csv file = Raised e ->
  is_Exception e = true ->
  load_all_data read_csv (fs1 ++ file :: fs2) st
  = ({| ss_dataframes_loaded := ss_dataframes_loaded st;
        ss_dataframes := Some (fst (load_files read_csv fs1 []));
        ss_num_files := ss_num_files st;
        ss_chat_history := ss_chat_history st;
        ss_llm_provider := ss_llm_provider st;
        ss_llm_model := ss_llm_model st |},
     Returned (LoadError e)).
Proof.
  intros Hok Hfail Hexc. unfold load_all_data.
  assert (Ht : Py.truthy_list (fs1 ++ file :: fs2)%list = true) by (destruct fs1; reflexivity).
  rewrite Ht, (load_files_app fs1 (file :: fs2) [] Hok).
  cbn [load_files]. cbv zeta. rewrite Hfail, Hexc. reflexivity.
Qed.

(** X18: running the initialisation again after a load, as every rerun of
    the script does, changes nothing in an initialised session: the loaded
    tables, the flag and the choices made in the sidebar stay. *)
Theorem rerun_keeps_session (uploaded_files : list UploadedFile) (st : SessionState) :
  initialize_session_state (initialize_session_state st) = initialize_session_state st
  /\ initialize_session_state
       (fst (load_all_data read_csv uploaded_files (initialize_session_state st)))
     = fst (load_all_data read_csv uploaded_files (initialize_session_state st)).
Proof.
  split.
  - destruct st as [[|] [|] [|] [|] [|] [|]]; reflexivity.
  - unfold load_all_data. destruct (Py.truthy_list uploaded_files).
    + destruct (load_files read_csv uploaded_files []) as [tables [e|]];
        destruct st as [[|] [|] [|] [|] [|] [|]]; reflexivity.
    + destruct st as [[|] [|] [|] [|] [|] [|]]; reflexivity.
Qed.

End SidebarFacts.

Lemma load_success_witness :
  exists tables,
    ss_dataframes (fst (load_all_data sample_read_csv sample_files sample_session))
    = Some tables
    /\ length tables <= 3
    /\ ss_num_files (fst (load_all_data sample_read_csv sample_files sample_session)) = Some 3.
Proof.
  destruct (load_success sample_read_csv sample_files sample_session) as (tables & E & _ & Hlen & _).
  - discriminate.
  - repeat constructor; eexists; reflexivity.
  - exists tables. rewrite E. repeat split. exact Hlen.
Defined.

Lemma load_failure_witness :
  load_all_data sample_read_csv
    ([ {| file_name := "customers.csv"; file_content := "customer_id" |} ]
       ++ {| file_name := "broken.csv"; file_content := "" |} :: sample_files)
    sample_session
  = ({| ss_dataframes_loaded := Some true;
        ss_dataframes := Some [("df_customers",
                                {| df_columns := [ {| col_name := "customer_id";
                                                      col_numeric := false |} ];
                                   df_len := 1 |})];
        ss_num_files := Some 1;
        ss_chat_history := Some [];
        ss_llm_provider := Some "gemini";
        ss_llm_model := Some "gemini-pro" |},
     Returned (LoadError {| exc_class := ValueError;
                            exc_str := "No columns to parse from file" |})).
Proof.
  apply (load_failure sample_read_csv
           [ {| file_name := "customers.csv"; file_content := "customer_id" |} ]
           sample_files {| file_name := "broken.csv"; file_content := "" |} _ sample_session).
  - repeat constructor. eexists. reflexivity.
  - reflexivity.
  - reflexivity.
Defined.

Lemma prompt_covers_every_table_witness :
  primary_dataframes
    (analyze_query_relevance "total sales by region"
       [("df_customers", customers_table); ("df_sales", two_column_table)])
    [("df_customers", customers_table); ("df_sales", two_column_table)] <> []
  /\ (In "df_sales"
        (primary_dataframes
           (analyze_query_relevance "total sales by region"
              [("df_customers", customers_table); ("df_sales", two_column_table)])
           [("df_customers", customers_table); ("df_sales", two_column_table)])
      \/ In "df_sales"
           (other_dfs
              (analyze_query_relevance "total sales by region"
                 [("df_customers", customers_table); ("df_sales", two_column_table)])
              [("df_customers", customers_table); ("df_sales", two_column_table)])).
Proof.
  pose proof (prompt_covers_every_table "total sales by region"
                [("df_customers", customers_table); ("df_sales", two_column_table)])
    as (_ & _ & Hne & Hcover).
  split.
  - apply Hne. discriminate.
  - apply (proj1 (Hcover "df_sales" (or_intror (or_introl eq_refl)))).
Defined.

(** ** Metric display *)

Lemma substring_length (n : nat) (s : string) :
  String.length (substring 0 n s) = Nat.min n (String.length s).
Proof.
  revert s. induction n as [|n IH]; intros s; destruct s as [|c s]; try reflexivity.
  simpl. rewrite IH. reflexivity.
Qed.

Lemma substring_prefix (n : nat) (s : string) :
  String.prefix (substring 0 n s) s = true.
Proof.
  revert s. induction n as [|n IH]; intros s; destruct s as [|c s]; try reflexivity.
  simpl. destruct (ascii_dec c c); [apply IH | congruence].
Qed.

Lemma string_length_app (a b : string) :
  String.length (a ++ b) = String.length a + String.length b.
Proof. induction a as [|c a IH]; [reflexivity|]. simpl. rewrite IH. reflexivity. Qed.

Section MetricFormatFacts.

Variable format_millions : Q -> string.
Variable format_grouped : Q -> string.
Variable format_fixed2 : Q -> string.

(** X19: a text metric is shown in at most 30 characters: unchanged when it
    has 30 or fewer, otherwise its first 27 characters and three dots; a
    metric that is [None] is shown as the word None. *)
Theorem text_metric_display (s : string) :
  let shown := format_metric_value format_millions format_grouped format_fixed2
                 (Some (SText s)) in
  String.length shown <= 30
  /\ (String.length s <= 30 -> shown = s)
  /\ (30 < String.length s ->
      shown = substring 0 27 s ++ "..."
      /\ String.length shown = 30
      /\ String.prefix (substring 0 27 s) s = true)
  /\ format_metric_value format_millions format_grouped format_fixed2 None = "None".
Proof.
  cbv zeta. cbn [format_metric_value]. unfold truncate_value.
  destruct (30 <? String.length s) eqn:E.
  - apply Nat.ltb_lt in E.
    assert (Hlen : String.length (substring 0 27 s ++ "...") = 30).
    { rewrite string_length_app, substring_length. cbn [String.length]. lia. }
    split; [lia|]. split; [lia|]. split; [|reflexivity].
    intros _. split; [reflexivity|]. split; [exact Hlen | apply substring_prefix].
  - apply Nat.ltb_ge in E. split; [exact E|]. split; [reflexivity|]. split; [lia | reflexivity].
Qed.

End MetricFormatFacts.

Lemma text_metric_display_witness :
  format_metric_value (fun _ => "") (fun _ => "") (fun _ => "")
    (Some (SText "United Kingdom of Great Britain and Northern Ireland"))
  = "United Kingdom of Great Bri...".
Proof.
  assert (Hlong : 30 < String.length "United Kingdom of Great Britain and Northern Ireland")
    by (cbn; lia).
  rewrite (proj1 (proj1 (proj2 (proj2
             (text_metric_display (fun _ => "") (fun _ => "") (fun _ => "")
                "United Kingdom of Great Britain and Northern Ireland"))) Hlong)).
  reflexivity.
Defined.

Lemma grid_row (n k : nat) (start len : nat) :
  flat_map (fun col_idx => if k + col_idx <? n then [k + col_idx] else []) (seq start len)
  = List.filter (fun i => i <? n) (seq (k + start) len).
Proof.
  revert start. induction len as [|len IH]; intros start; [reflexivity|].
  cbn [seq flat_map List.filter]. rewrite IH.
  replace (k + S start) with (S (k + start)) by lia.
  destruct (k + start <? n); reflexivity.
Qed.

Lemma grid_rows (n c rows : nat) :
  concat (map (fun row => List.filter (fun i => i <? n) (seq (row * c) c)) (seq 0 rows))
  = List.filter (fun i => i <? n) (seq 0 (rows * c)).
Proof.
  induction rows as [|rows IH]; [reflexivity|].
  rewrite seq_S, map_app, concat_app, IH. cbn [map concat Nat.add].
  rewrite app_nil_r.
  replace (S rows * c) with (rows * c + c) by lia.
  rewrite seq_app, List.filter_app. reflexivity.
Qed.

Lemma filter_below (n m : nat) :
  n <= m -> List.filter (fun i => i <? n) (seq 0 m) = seq 0 n.
Proof.
  intros Hle. replace m with (n + (m - n)) by lia.
  rewrite seq_app, List.filter_app. cbn [Nat.add].
  rewrite (forallb_filter_id (fun i => i <? n) (seq 0 n)).
  - rewrite (filter_ext_in (fun i => i <? n) (fun _ => false)).
    + rewrite filter_false. apply app_nil_r.
    + intros i Hi. apply in_seq in Hi. apply Nat.ltb_ge. lia.
  - apply forallb_forall. intros i Hi. apply in_seq in Hi. apply Nat.ltb_lt. lia.
Qed.

Lemma rows_cover (n c : nat) : 0 < c -> n <= (n + c - 1) / c * c.
Proof.
  intros Hc. pose proof (Nat.div_mod_eq (n + c - 1) c) as Hdiv.
  pose proof (Nat.mod_upper_bound (n + c - 1) c) as Hmod.
  rewrite (Nat.mul_comm _ c). lia.
Qed.

Lemma last_row_used (n c row : nat) :
  0 < c -> 0 < n -> row < (n + c - 1) / c -> row * c < n.
Proof.
  intros Hc Hn Hrow. pose proof (Nat.div_mod_eq (n + c - 1) c) as Hdiv.
  assert (Hle : S row * c <= (n + c - 1) / c * c) by (apply Nat.mul_le_mono_r; lia).
  rewrite (Nat.mul_comm _ c) in Hle. cbn [Nat.mul] in Hle. lia.
Qed.

(** X20: the grid shows every metric exactly once and in order: read row by
    row it lists the positions 0, 1, ... up to the number of metrics; no row
    has more than four cells and none is empty. *)
Theorem metric_grid_shows_all (n : nat) :
  concat (metric_grid n) = seq 0 n
  /\ Forall (fun row => 1 <= length row <= 4) (metric_grid n).
Proof.
  unfold metric_grid. cbv zeta.
  destruct (0 <? Nat.min n 4) eqn:E.
  - apply Nat.ltb_lt in E. set (c := Nat.min n 4) in *.
    assert (Hrows : map (fun row =>
                           flat_map (fun col_idx =>
                                       if row * c + col_idx <? n then [row * c + col_idx] else [])
                                    (seq 0 c))
                        (seq 0 ((n + c - 1) / c))
                    = map (fun row => List.filter (fun i => i <? n) (seq (row * c) c))
                        (seq 0 ((n + c - 1) / c))).
    { apply map_ext. intros row. rewrite grid_row. rewrite Nat.add_0_r. reflexivity. }
    rewrite Hrows. split.
    + rewrite grid_rows. apply filter_below, rows_cover, E.
    + apply List.Forall_forall. intros row Hin. apply in_map_iff in Hin.
      destruct Hin as (r & <- & Hr). apply in_seq in Hr. split.
      * assert (Hfirst : In (r * c) (List.filter (fun i => i <? n) (seq (r * c) c))).
        { apply List.filter_In. split.
          - apply in_seq. lia.
          - apply Nat.ltb_lt. apply last_row_used; lia. }
        destruct (List.filter (fun i => i <? n) (seq (r * c) c)); [destruct Hfirst|].
        cbn [length]. lia.
      * etransitivity; [apply filter_length_le|]. rewrite length_seq. lia.
  - apply Nat.ltb_ge in E. assert (n = 0) by lia. subst. split; [reflexivity | constructor].
Qed.

(** ** What the static validator's list can hold *)

Lemma In_append_inv (x y : string) (l : list string) :
  In x (Py.append l y) -> In x l \/ x = y.
Proof.
  unfold Py.append. intros H. apply in_app_or in H.
  destruct H as [H|[H|[]]]; [left; exact H | right; symmetry; exact H].
Qed.

Lemma In_append_if_inv (c : bool) (x y : string) (l : list string) :
  In x (append_if c y l) -> In x l \/ (c = true /\ x = y).
Proof.
  unfold append_if. destruct c; [|tauto].
  intros H. apply In_append_inv in H. tauto.
Qed.

Lemma In_fold_append_if_inv {A : Type} (c : A -> bool) (msg : A -> string)
    (xs : list A) (acc : list string) (y : string) :
  In y (fold_left (fun acc x => append_if (c x) (msg x) acc) xs acc) ->
  In y acc \/ exists x, In x xs /\ c x = true /\ y = msg x.
Proof.
  revert acc. induction xs as [|x xs IH]; intros acc H; cbn [fold_left] in H; [tauto|].
  apply IH in H. destruct H as [H|(x' & Hin & Hc & ->)].
  - apply In_append_if_inv in H. destruct H as [H|[Hc ->]]; [tauto|].
    right. exists x. cbn [In]. tauto.
  - right. exists x'. cbn [In]. tauto.
Qed.

Lemma string_app_inv_head (p a b : string) : p ++ a = p ++ b -> a = b.
Proof.
  induction p as [|c p IH]; [trivial|]. simpl. intros H. injection H. exact IH.
Qed.

Lemma string_app_inv_tail (a b t : string) : a ++ t = b ++ t -> a = b.
Proof.
  revert b. induction a as [|c a IH]; intros b H.
  - destruct b as [|d b]; [reflexivity|]. exfalso.
    apply (f_equal String.length) in H. rewrite !string_length_app in H.
    cbn [String.length] in H. lia.
  - destruct b as [|d b].
    + exfalso. apply (f_equal String.length) in H. rewrite !string_length_app in H.
      cbn [String.length] in H. lia.
    + simpl in H. injection H as -> H. f_equal. apply IH, H.
Qed.

Lemma security_import_issue_inj (a b : string) :
  security_import_issue a = security_import_issue b -> a = b.
Proof.
  unfold security_import_issue. intros H.
  apply string_app_inv_head in H. apply string_app_inv_tail in H. exact H.
Qed.

Ltac warning_text :=
  first [ left; reflexivity
        | right; left; reflexivity
        | right; right; left; reflexivity
        | right; right; right; reflexivity ].

Ltac warnings_only H :=
  repeat match type of H with
         | In _ (append_if _ _ _) =>
             apply In_append_if_inv in H; destruct H as [H|[_ ->]]; [|warning_text]
         | In _ (Py.append _ _) =>
             apply In_append_inv in H; destruct H as [H| ->]; [|warning_text]
         | In _ (if ?c then _ else _) => destruct c
         | In _ (match ?m with Some _ => _ | None => _ end) => destruct m
         | In _ [] => destruct H
         end.

Section StaticValidatorFacts.

Variable re_search : string -> string -> bool -> option ReMatch.
Variable ast_parse : string -> PyOutcome unit.

(** Every text in the returned list is one of the issues, with the
    condition under which it is added, or a warning. *)
Lemma validate_code_elements (code : string) (available_dfs : list string)
    (l : list string) (x : string) :
  validate_code re_search ast_parse code available_dfs = Returned l ->
  In x l ->
  (exists imp, In imp dangerous_imports
               /\ Py.contains ("import " ++ imp) code || Py.contains ("from " ++ imp) code = true
               /\ x = security_import_issue imp)
  \/ x = "🚫 Code tries to import openai (not allowed)"
  \/ x = "🚫 SECURITY: Code tries to perform file operations (not allowed)"
  \/ x = "🚫 SECURITY: Code tries to make network requests (not allowed)"
  \/ (existsb (fun df_name => Py.contains df_name code) available_dfs = false
      /\ x = unused_data_issue)
  \/ String.prefix "⚠️ CRITICAL: Missing" x = true
  \/ String.prefix "🚫 SYNTAX ERROR: " x = true
  \/ is_warning x.
Proof.
  intros Hret Hin. unfold validate_code in Hret. cbv zeta in Hret.
  assert (Hissues :
            forall issues : list string,
              In x (append_if
                      (Py.truthy_list
                         (List.filter
                            (fun var => negb (is_match (re_search ("\b" ++ var ++ "\s*=") code false)))
                            required_vars))
                      ("⚠️ CRITICAL: Missing required output variables: "
                       ++ Py.join ", "
                            (List.filter
                               (fun var => negb (is_match (re_search ("\b" ++ var ++ "\s*=") code false)))
                               required_vars))
                      (append_if (negb (existsb (fun df_name => Py.contains df_name code) available_dfs))
                         "⚠️ CRITICAL: Code doesn't use any of the available dataframes"
                         (append_if
                            (Py.contains "requests." code || Py.contains "urllib" code
                             || Py.contains "socket" code)
                            "🚫 SECURITY: Code tries to make network requests (not allowed)"
                            (append_if
                               (Py.contains "open(" code || Py.contains "write(" code
                                || Py.contains "read(" code)
                               "🚫 SECURITY: Code tries to perform file operations (not allowed)"
                               (append_if
                                  (Py.contains "import openai" code || Py.contains "from openai" code)
                                  "🚫 Code tries to import openai (not allowed)" issues))))) ->
              In x issues
              \/ x = "🚫 Code tries to import openai (not allowed)"
              \/ x = "🚫 SECURITY: Code tries to perform file operations (not allowed)"
              \/ x = "🚫 SECURITY: Code tries to make network requests (not allowed)"
              \/ (existsb (fun df_name => Py.contains df_name code) available_dfs = false
                  /\ x = unused_data_issue)
              \/ String.prefix "⚠️ CRITICAL: Missing" x = true).
  { intros issues H.
    apply In_append_if_inv in H. destruct H as [H|[_ ->]]; [|do 5 right; reflexivity].
    apply In_append_if_inv in H. destruct H as [H|[Hc ->]];
      [|do 4 right; left; split; [apply negb_true_iff, Hc | reflexivity]].
    apply In_append_if_inv in H. destruct H as [H|[_ ->]]; [|tauto].
    apply In_append_if_inv in H. destruct H as [H|[_ ->]]; [|tauto].
    apply In_append_if_inv in H. destruct H as [H|[_ ->]]; tauto. }
  assert (Hfold :
            In x (fold_left
                    (fun (issues : list string) (imp : string) =>
                       append_if
                         (Py.contains ("import " ++ imp) code || Py.contains ("from " ++ imp) code)
                         (security_import_issue imp) issues)
                    dangerous_imports []) ->
            exists imp, In imp dangerous_imports
                        /\ Py.contains ("import " ++ imp) code
                           || Py.contains ("from " ++ imp) code = true
                        /\ x = security_import_issue imp).
  { intros H.
    apply (In_fold_append_if_inv
             (fun imp => Py.contains ("import " ++ imp) code || Py.contains ("from " ++ imp) code)
             security_import_issue) in H.
    destruct H as [[]|H]. exact H. }
  destruct (ast_parse code) as [u|e];
    [|destruct (is_SyntaxError e); [|destruct (is_Exception e); [|discriminate Hret]]];
    injection Hret as <-; apply in_app_or in Hin; destruct Hin as [Hin|Hin].
  - apply Hissues in Hin. destruct Hin as [Hin|Hin]; [left; apply Hfold, Hin | tauto].
  - do 7 right. warnings_only Hin.
  - apply In_append_inv in Hin. destruct Hin as [Hin| ->]; [|do 6 right; left; apply prefix_self_app].
    apply Hissues in Hin. destruct Hin as [Hin|Hin]; [left; apply Hfold, Hin | tauto].
  - do 7 right. warnings_only Hin.
  - apply Hissues in Hin. destruct Hin as [Hin|Hin]; [left; apply Hfold, Hin | tauto].
  - do 7 right. warnings_only Hin.
Qed.

(** X21: the list says that the code ignores the data exactly when none of
    the table names occurs in the code; in particular it always says so
    when no table is loaded. *)
Theorem unused_data_flag_exact (code : string) (available_dfs : list string)
    (issues : list string) :
  validate_code re_search ast_parse code available_dfs = Returned issues ->
  (In unused_data_issue issues
   <-> forall df_name, In df_name available_dfs -> Py.contains df_name code = false).
Proof.
  intros Hret.
  assert (Hex : existsb (fun df_name => Py.contains df_name code) available_dfs = false
                <-> forall df_name, In df_name available_dfs -> Py.contains df_name code = false).
  { split.
    - intros H df_name Hin. destruct (Py.contains df_name code) eqn:E; [|reflexivity].
      assert (existsb (fun df_name => Py.contains df_name code) available_dfs = true).
      { apply existsb_exists. exists df_name. tauto. }
      congruence.
    - intros H. apply not_true_iff_false. intros Ht. apply existsb_exists in Ht.
      destruct Ht as (df_name & Hin & Hc). rewrite (H df_name Hin) in Hc. discriminate. }
  rewrite <- Hex. split.
  - intros Hin.
    destruct (validate_code_elements code available_dfs issues _ Hret Hin)
      as [(imp & _ & _ & H)|[H|[H|[H|[[H _]|[H|[H|H]]]]]]];
      try exact H; try (vm_compute in H; discriminate H).
    destruct H as [H|[H|[H|H]]]; vm_compute in H; discriminate H.
  - intros Hnone. unfold validate_code in Hret. cbv zeta in Hret.
    destruct (ast_parse code) as [u|e];
      [|destruct (is_SyntaxError e); [|destruct (is_Exception e); [|discriminate Hret]]];
      injection Hret as <-; in_left; try apply In_append_keep;
      apply In_append_if_keep; apply In_append_if_new; rewrite Hnone; reflexivity.
Qed.

(** X22: the import flags are exact.  The security issue for a name is in
    the list exactly when the name is one of the seven denylisted ones and
    the code contains [import] or [from] followed by it. *)
Theorem import_flag_exact (code : string) (available_dfs : list string)
    (issues : list string) (imp : string) :
  validate_code re_search ast_parse code available_dfs = Returned issues ->
  (In (security_import_issue imp) issues
   <-> In imp dangerous_imports
       /\ (Py.contains ("import " ++ imp) code = true
           \/ Py.contains ("from " ++ imp) code = true)).
Proof.
  intros Hret. split.
  - intros Hin.
    destruct (validate_code_elements code available_dfs issues _ Hret Hin)
      as [(imp' & Himp & Hc & H)|[H|[H|[H|[[_ H]|[H|[H|H]]]]]]];
      try (vm_compute in H; discriminate H).
    + apply security_import_issue_inj in H. subst imp'.
      split; [exact Himp | apply orb_true_iff, Hc].
    + destruct H as [H|[H|[H|H]]]; vm_compute in H; discriminate H.
  - intros [Himp Hc].
    apply (validate_code_flags_import re_search ast_parse code available_dfs imp issues Hret Himp).
    apply orb_true_iff, Hc.
Qed.

End StaticValidatorFacts.

Lemma unused_data_flag_exact_witness :
  exists issues,
    validate_code sample_re_search sample_ast_parse "result = df_sales.head()" ["df_orders"]
    = Returned issues
    /\ In unused_data_issue issues.
Proof.
  eexists. split; [reflexivity|].
  apply (proj2 (unused_data_flag_exact sample_re_search sample_ast_parse
                  "result = df_sales.head()" ["df_orders"] _ eq_refl)).
  intros df_name [<-|[]]. reflexivity.
Defined.

Lemma import_flag_exact_witness :
  exists issues,
    validate_code sample_re_search sample_ast_parse "import os; result = 1/0" ["df_sales"]
    = Returned issues
    /\ In (security_import_issue "os") issues
    /\ ~ In (security_import_issue "sys") issues.
Proof.
  eexists. split; [reflexivity|]. split.
  - apply (proj2 (import_flag_exact sample_re_search sample_ast_parse
                    "import os; result = 1/0" ["df_sales"] _ "os" eq_refl)).
    split; [left; reflexivity | left; reflexivity].
  - intros Hin.
    apply (proj1 (import_flag_exact sample_re_search sample_ast_parse
                    "import os; result = 1/0" ["df_sales"] _ "sys" eq_refl)) in Hin.
    destruct Hin as [_ [H|H]]; discriminate H.
Defined.
